(** * PR review bot: notification reconciliation and delivery

    A shallow embedding of the three services of the bot

    - [MessageStore]  (src/pachka/store/message-store.service.ts),
    - [Pachka]        (src/pachka/pachka.service.ts),
    - [Bitbucket]     (src/bitbucket/bitbucket.service.ts),

    followed by the properties of the renderer, the thread store, the
    delivery queue and the poll cycle.

    Conventions.  A JavaScript object used as a dictionary is a [gmap] of
    its own properties; a read by a name that is not a number also sees what
    the object inherits ([JS.getProperty]).  The
    keys of the store are numbers, whose property names are their canonical
    decimal renderings, so the store is keyed by [Z] and the strings that
    [Object.entries] and [toString] produce for these keys are identified
    with the numbers they render ([+prId] inverts the rendering).  Optional
    fields are [option]s, and the truthiness tests of the source are written
    out ([truthy_string], [truthy_number], [truthy_id]).  Everything the code
    awaits from outside (HTTP replies, the file system, the clock) is an
    explicit input. *)

From Stdlib Require Import ZArith Lia.
From stdpp Require Import gmap strings list fin_maps pretty.

Local Open Scope string_scope.
Local Open Scope Z_scope.

(* stdpp's solvers clear hypotheses by name as they go. *)
Set Warnings "-clear-no-such-hyp".

(** ** JavaScript helpers *)

Module JS.

Definition nl : string := String (Ascii.ascii_of_nat 10) EmptyString.

(** [Array.prototype.join]. *)
Definition join (sep : string) (parts : list string) : string :=
  String.concat sep parts.

(** A string is truthy unless it is empty; a number unless it is zero. *)
Definition truthy_string (s : string) : bool := bool_decide (s ≠ "").
Definition truthy_number (n : Z) : bool := bool_decide (n ≠ 0).

(** [x?.toString()] and the truthiness of an optional string or number. *)
Definition truthy_opt_string (o : option string) : bool :=
  match o with Some s => truthy_string s | None => false end.
Definition truthy_opt_number (o : option Z) : bool :=
  match o with Some n => truthy_number n | None => false end.

(** The source text of a native function, as a template literal renders
    it under Node.js. *)
Definition nativeFunction (name : string) : string :=
  "function " +:+ name +:+ "() { [native code] }".

(** What an object made by [JSON.parse] inherits from [Object.prototype],
    by property name, as a template literal renders the value: the native
    functions as their source text, and [__proto__], the prototype itself,
    as an object.  Every one of these values is truthy. *)
Definition inherited (name : string) : option string :=
  if bool_decide (name = "constructor") then Some (nativeFunction "Object")
  else if bool_decide (name = "__proto__") then Some "[object Object]"
  else if bool_decide
            (name ∈ [ "__defineGetter__"; "__defineSetter__"; "hasOwnProperty";
                      "__lookupGetter__"; "__lookupSetter__"; "isPrototypeOf";
                      "propertyIsEnumerable"; "toString"; "valueOf";
                      "toLocaleString" ])
  then Some (nativeFunction name)
  else None.

(** [object[name]] on such an object: its own property if it has one,
    else the inherited one. *)
Definition getProperty (own : gmap string string) (name : string) : option string :=
  match own !! name with
  | Some value => Some value
  | None => inherited name
  end.

End JS.

(** ** Data model (src/bitbucket/interfaces/pull-request.interface.ts) *)

Record BitbucketUser := mkUser {
  display_name : string;
  account_id : string;
}.

Inductive PullRequestState := OPEN | MERGED | DECLINED | SUPERSEDED.

Inductive ParticipantRole := PARTICIPANT | REVIEWER.

Inductive ReviewState := st_approved | st_changes_requested | st_pending.

Record Participant := mkParticipant {
  p_user : BitbucketUser;
  p_role : ParticipantRole;
  p_approved : bool;
  p_state : option ReviewState;
}.

Record PullRequest := mkPullRequest {
  pr_id : Z;
  pr_title : string;
  pr_description : string;
  pr_state : PullRequestState;
  pr_author : BitbucketUser;
  pr_reviewers : list BitbucketUser;
  pr_participants : list Participant;
  pr_source_branch : string;
  pr_source_repository : string;      (* source.repository.full_name *)
  pr_destination_branch : string;
  pr_href : string;                   (* links.html.href *)
}.

Global Instance BitbucketUser_eq_dec : EqDecision BitbucketUser.
Proof. solve_decision. Defined.
Global Instance PullRequestState_eq_dec : EqDecision PullRequestState.
Proof. solve_decision. Defined.
Global Instance ReviewState_eq_dec : EqDecision ReviewState.
Proof. solve_decision. Defined.

Definition state_text (s : PullRequestState) : string :=
  match s with
  | OPEN => "OPEN"
  | MERGED => "MERGED"
  | DECLINED => "DECLINED"
  | SUPERSEDED => "SUPERSEDED"
  end.

(** The lookup every renderer callback starts with:
    [pr.participants.find((p) => p.user.account_id === reviewer.account_id)]. *)
Definition participantInfo (pr : PullRequest) (reviewer : BitbucketUser)
  : option Participant :=
  List.find
    (λ p, bool_decide (account_id (p_user p) = account_id reviewer))
    (pr_participants pr).

(** [participantInfo?.approved] as a condition, and
    [participantInfo?.state === 'changes_requested']. *)
Definition approvedOf (info : option Participant) : bool :=
  match info with Some p => p_approved p | None => false end.

Definition changesRequested (info : option Participant) : bool :=
  match info with
  | Some p => bool_decide (p_state p = Some st_changes_requested)
  | None => false
  end.

(** The callback shared by [hasPendingReviewers] (both services) and by the
    filter of [formatPullRequestUpdateMessage]:
    [!participant?.approved && participant?.state !== 'changes_requested']. *)
Definition awaitsReview (pr : PullRequest) (reviewer : BitbucketUser) : bool :=
  let participant := participantInfo pr reviewer in
  negb (approvedOf participant) && negb (changesRequested participant).

(** ** Exceptions

    What the source throws or lets escape: [new Error(msg)], a rejected HTTP
    request (an axios error, whose [response?.status] is absent when no
    response arrived), and a failed file operation. *)

Inductive Exn :=
| Error (msg : string)
| AxiosError (status : option Z)
| FsError.

Inductive Result (A : Type) :=
| Ok (a : A)
| Throw (e : Exn).
Arguments Ok {A} a.
Arguments Throw {A} e.

(** [error.response?.status] *)
Definition responseStatus (e : Exn) : option Z :=
  match e with
  | AxiosError status => status
  | Error _ | FsError => None
  end.

(** ** Thread store (src/pachka/store/message-store.service.ts) *)

Module MessageStore.

Record Entry := mkEntry {
  messageId : string;
  repository : string;
  updatedAt : string;
}.

(** What one [saveStore] meets on disk: both file operations succeed, the
    write fails, or the write succeeds and the read-back fails. *)
Inductive FsOutcome := FsOk | FsWriteFails | FsReadFails.

(** [store] is the in-memory object, [file] the parsed content of
    message-store.json. *)
Record State := mkState {
  store : gmap Z Entry;
  file : gmap Z Entry;
}.

Record StoredPR := mkStoredPR {
  sp_prId : Z;
  sp_repository : string;
  sp_messageId : string;
}.

Definition saveStore (fs : FsOutcome) (s : State) : Result unit * State :=
  match fs with
  | FsOk => (Ok tt, mkState (store s) (store s))
  | FsWriteFails => (Throw FsError, s)
  | FsReadFails => (Throw FsError, mkState (store s) (store s))
  end.

(** [this.store[prId]?.messageId], then [stored || null]. *)
Definition getMessageId (prId : Z) (s : State) : option string :=
  match store s !! prId with
  | Some e => if JS.truthy_string (messageId e) then Some (messageId e) else None
  | None => None
  end.

(** [messageId] is declared a string; the delivery worker passes
    [threadResponse.data?.data?.id?.toString()], which may be undefined,
    hence the [option]. *)
Definition saveMessageId (fs : FsOutcome) (now : string)
    (prId : Z) (messageId : option string) (repository : string) (s : State)
  : Result unit * State :=
  if negb (JS.truthy_opt_string messageId)
     || negb (JS.truthy_number prId)
     || negb (JS.truthy_string repository)
  then (Throw (Error "Invalid message data for storage"), s)
  else
    let entry := mkEntry (default "" messageId) repository now in
    let s1 := mkState (<[prId := entry]> (store s)) (file s) in
    match saveStore fs s1 with
    | (Throw e, s2) => (Throw e, s2)
    | (Ok _, s2) =>
        let storedId := getMessageId prId s2 in
        if bool_decide (storedId ≠ messageId)
        then (Throw (Error "Message ID verification failed"), s2)
        else (Ok tt, s2)
    end.

(** The check that closes [removePR]: [if (this.store[prId]) throw ...]. *)
Definition verifyRemoved (prId : Z) (s : State) : Result unit :=
  match store s !! prId with
  | Some _ => Throw (Error "PR removal verification failed")
  | None => Ok tt
  end.

Definition removePR (fs : FsOutcome) (prId : Z) (repository : string) (s : State)
  : Result unit * State :=
  match store s !! prId with
  | None => (Ok tt, s)
  | Some storedPR =>
      if bool_decide (MessageStore.repository storedPR ≠ repository)
      then (Ok tt, s)
      else
        let s1 := mkState (delete prId (store s)) (file s) in
        match saveStore fs s1 with
        | (Throw e, s2) => (Throw e, s2)
        | (Ok _, s2) => (verifyRemoved prId s2, s2)
        end
  end.

(** [Object.entries(this.store).map(...)]; the order of the listing is the
    map's, not the object's. *)
Definition getAllPRs (s : State) : list StoredPR :=
  (λ kv, mkStoredPR kv.1 (repository kv.2) (messageId kv.2)) <$> map_to_list (store s).

(** What [readFile] and [JSON.parse] meet at start-up: the file is there and
    parses (its content is [file]), the file is missing (code ENOENT), or
    reading or parsing throws something else. *)
Inductive DiskRead := Present | Missing | Unreadable (e : Exn).

(** The service as constructed: [private store: MessageStore = {}]. *)
Definition created (file : gmap Z Entry) : State := mkState ∅ file.

(** [mkdir] tells whether [fs.mkdir] succeeds. *)
Definition initializeStore (mkdir : bool) (disk : DiskRead) (fs : FsOutcome)
    (s : State) : Result unit * State :=
  if negb mkdir then (Throw FsError, s)
  else
    match disk with
    | Present => (Ok tt, mkState (file s) (file s))
    | Missing => saveStore fs s
    | Unreadable error => (Throw error, s)
    end.

Definition onModuleInit (mkdir : bool) (disk : DiskRead) (fs : FsOutcome)
    (s : State) : Result unit * State :=
  initializeStore mkdir disk fs s.

End MessageStore.

(** ** Chat service (src/pachka/pachka.service.ts) *)

Module Pachka.

Record QueuedMessage := mkQueuedMessage {
  message : string;
  parentMessageId : option string;
  prId : option Z;
  repository : option string;
  retries : nat;
}.

Definition MAX_RETRIES : nat := 3.

(** [pachka.chatId] and the own entries of the parsed [pachka.reviewers]
    mapping. *)
Record Config := mkConfig {
  chatId : string;
  reviewerMappings : gmap string string;
}.

(** *** The gateway as the worker sees it *)

(** [data?.data?.id] of a response body: absent, a number or a string. *)
Inductive JsId := IdMissing | IdNumber (n : Z) | IdString (s : string).

Definition truthy_id (i : JsId) : bool :=
  match i with
  | IdMissing => false
  | IdNumber n => JS.truthy_number n
  | IdString s => JS.truthy_string s
  end.

(** [id?.toString()]; a number is rendered in decimal, as JavaScript does
    for integers below 1e21. *)
Definition id_toString (i : JsId) : option string :=
  match i with
  | IdMissing => None
  | IdNumber n => Some (pretty n)
  | IdString s => Some s
  end.

(** A request settles with a response body or is rejected. *)
Inductive Http := Reply (id : JsId) | Rejected (status : option Z).

Inductive Request :=
| PostMessage (content entity_type entity_id : string)
| PostThread (messageId : string).

(** Everything one drain attempt awaits: the reply to [POST /messages], the
    reply to [POST /messages/:id/thread], the outcome of the store's file
    operations and the clock read by [saveMessageId]. *)
Record Attempt := mkAttempt {
  on_message : Http;
  on_thread : Http;
  on_save : MessageStore.FsOutcome;
  now : string;
}.

(** *** State

    The queue holds objects: each queued message carries the identity it was
    allocated with, so that [message.retries++] on the worker's local
    reference and [this.messageQueue.shift()] are separate operations on the
    array, as in the source. *)
Record State := mkState {
  messageQueue : list (nat * QueuedMessage);
  isProcessing : bool;
  allocated : nat;
  messageStore : MessageStore.State;
}.

(** [this.messageQueue.shift()] *)
Definition shift (q : list (nat * QueuedMessage)) : list (nat * QueuedMessage) :=
  tail q.

(** [message.retries++] on the object of identity [ref]. *)
Definition bump (ref : nat) (q : list (nat * QueuedMessage))
  : list (nat * QueuedMessage) :=
  (λ cell : nat * QueuedMessage,
     if bool_decide (cell.1 = ref)
     then (cell.1, mkQueuedMessage (message cell.2) (parentMessageId cell.2)
                     (prId cell.2) (repository cell.2) (S (retries cell.2)))
     else cell) <$> q.

Definition queueMessage (message : string) (parentMessageId : option string)
    (prId : option Z) (repository : option string) (s : State) : State :=
  mkState
    (messageQueue s ++
       [(allocated s, mkQueuedMessage message parentMessageId prId repository 0)])
    (isProcessing s) (S (allocated s)) (messageStore s).

(** *** The delivery worker *)

(** The inner [try] block of [processMessageQueue] up to, and without, the
    closing [shift]: the result, the store and the requests issued. *)
Definition deliver (cfg : Config) (env : Attempt) (msg : QueuedMessage)
    (ms : MessageStore.State)
  : Result unit * MessageStore.State * list Request :=
  if JS.truthy_opt_string (parentMessageId msg) then
    let post := PostMessage (message msg) "thread" (default "" (parentMessageId msg)) in
    match on_message env with
    | Rejected status => (Throw (AxiosError status), ms, [post])
    | Reply _ => (Ok tt, ms, [post])
    end
  else
    let post := PostMessage (message msg) "discussion" (chatId cfg) in
    match on_message env with
    | Rejected status => (Throw (AxiosError status), ms, [post])
    | Reply id =>
        if truthy_id id then
          let messageId := default "" (id_toString id) in
          let calls := [post; PostThread messageId] in
          match on_thread env with
          | Rejected status => (Throw (AxiosError status), ms, calls)
          | Reply threadId =>
              if JS.truthy_opt_number (prId msg)
                 && JS.truthy_opt_string (repository msg)
              then
                let '(r, ms') :=
                  MessageStore.saveMessageId (on_save env) (now env)
                    (default 0 (prId msg)) (id_toString threadId)
                    (default "" (repository msg)) ms in
                (r, ms', calls)
              else (Ok tt, ms, calls)
          end
        else (Ok tt, ms, [post])
    end.

(** What happens to the queue once the attempt on [msg] (the object [ref])
    has settled: the [shift] that closes the [try] block, or the [catch]
    block. *)
Definition settle (outcome : Result unit) (ref : nat) (msg : QueuedMessage)
    (q : list (nat * QueuedMessage)) : list (nat * QueuedMessage) :=
  match outcome with
  | Ok _ => shift q
  | Throw error =>
      if bool_decide (responseStatus error = Some 429) then
        if bool_decide (retries msg < MAX_RETRIES)%nat
        then bump ref q
        else shift q
      else shift q
  end.

(** One run of [processMessageQueue] with nothing else interleaved: the new
    state and the requests sent to the gateway. *)
Definition processMessageQueue (cfg : Config) (env : Attempt) (s : State)
  : State * list Request :=
  if isProcessing s then (s, [])
  else
    match messageQueue s with
    | [] => (s, [])
    | (ref, msg) :: _ =>
        let '(outcome, ms, calls) := deliver cfg env msg (messageStore s) in
        (mkState (settle outcome ref msg (messageQueue s)) false (allocated s) ms,
         calls)
    end.

(** The same run split at its first suspension point.  [startDrain] is the
    synchronous prefix: the guard, [isProcessing = true], the local
    [message = this.messageQueue[0]] and the first request; it returns the
    object the worker now holds, if any.  [finishDrain] is what runs once the
    awaited replies are in, on the state as it is by then. *)
Definition startDrain (s : State) : State * option (nat * QueuedMessage) :=
  if isProcessing s then (s, None)
  else
    match messageQueue s with
    | [] => (s, None)
    | cell :: _ =>
        (mkState (messageQueue s) true (allocated s) (messageStore s), Some cell)
    end.

Definition finishDrain (cfg : Config) (env : Attempt)
    (held : nat * QueuedMessage) (s : State) : State * list Request :=
  let '(outcome, ms, calls) := deliver cfg env held.2 (messageStore s) in
  (mkState (settle outcome held.1 held.2 (messageQueue s)) false (allocated s) ms,
   calls).

(** *** The renderer *)

Definition hasPendingReviewers (pr : PullRequest) : bool :=
  existsb (awaitsReview pr) (pr_reviewers pr).

(** [const mention = this.reviewerMappings[displayName]], then
    [mention ? `${displayName} - ${mention}` : displayName].  The mapping is
    a plain object, so the read goes through its prototype. *)
Definition withMention (cfg : Config) (displayName : string) : string :=
  match JS.getProperty (reviewerMappings cfg) displayName with
  | Some mention =>
      if JS.truthy_string mention
      then displayName +:+ " - " +:+ mention
      else displayName
  | None => displayName
  end.

Definition statusGlyph (pr : PullRequest) (reviewer : BitbucketUser) : string :=
  let info := participantInfo pr reviewer in
  if approvedOf info then "✅"
  else if changesRequested info then "🔴"
  else "⏳".

Definition formatPullRequestMessage (pr : PullRequest) : string :=
  let reviewersText :=
    JS.join JS.nl
      ((λ reviewer, statusGlyph pr reviewer +:+ " " +:+ display_name reviewer)
         <$> pr_reviewers pr) in
  JS.join JS.nl
    (List.filter JS.truthy_string
       [ "🟢 *Новый Pull Request*";
         "";
         "*Название:* " +:+ pr_title pr;
         "*Автор:* " +:+ display_name (pr_author pr);
         "*Статус:* " +:+
           (if bool_decide (pr_state pr = OPEN) then "Открыт"
            else state_text (pr_state pr));
         "*Репозиторий:* " +:+ pr_source_repository pr;
         "*Ветки:* " +:+ pr_source_branch pr +:+ " → " +:+ pr_destination_branch pr;
         "";
         "*Ревьюеры:*";
         (if JS.truthy_string reviewersText then reviewersText
          else "Нет назначенных ревьюеров");
         "";
         (if JS.truthy_string (pr_description pr)
          then JS.join JS.nl ["*Описание:*"; pr_description pr; ""]
          else "");
         "🔗 " +:+ pr_href pr ]).

(** The two texts [formatPullRequestUpdateMessage] can return. *)
Definition allApprovedText (cfg : Config) (pr : PullRequest) : string :=
  let displayName := withMention cfg (display_name (pr_author pr)) in
  let reviewersText :=
    JS.join JS.nl ((λ reviewer, "✅ " +:+ display_name reviewer) <$> pr_reviewers pr) in
  JS.join JS.nl
    [ "🎉 *Все ревьюеры одобрили PR!*";
      displayName +:+ ", ваш PR готов к мерджу:";
      "PR: " +:+ pr_title pr;
      "";
      "*Одобрено:*";
      reviewersText;
      "";
      "🔗 " +:+ pr_href pr ].

Definition reminderText (pr : PullRequest) (pendingReviewers : list string) : string :=
  JS.join JS.nl
    ([ "🔄 Напоминание о ревью";
       "PR: " +:+ pr_title pr;
       "";
       "Ожидается ревью от:" ]
     ++ ((λ name, "• " +:+ name) <$> pendingReviewers)
     ++ [ ""; "🔗 " +:+ pr_href pr ]).

Definition pendingReviewers (cfg : Config) (pr : PullRequest) : list string :=
  (λ reviewer, withMention cfg (display_name reviewer))
    <$> List.filter (awaitsReview pr) (pr_reviewers pr).

Definition allReviewersApproved (pr : PullRequest) : bool :=
  bool_decide (pr_reviewers pr ≠ [])
  && forallb (λ reviewer, approvedOf (participantInfo pr reviewer)) (pr_reviewers pr).

Definition formatPullRequestUpdateMessage (cfg : Config) (pr : PullRequest)
  : option string :=
  if bool_decide (pr_state pr = OPEN) && allReviewersApproved pr
  then Some (allApprovedText cfg pr)
  else
    match pendingReviewers cfg pr with
    | _ :: _ => Some (reminderText pr (pendingReviewers cfg pr))
    | [] => None
    end.

(** *** Reconciliation of one snapshot *)

Definition sendPullRequestNotification (cfg : Config) (pr : PullRequest) (s : State)
  : bool * State :=
  let repository := pr_source_repository pr in
  match MessageStore.getMessageId (pr_id pr) (messageStore s) with
  | Some existingMessageId =>
      match formatPullRequestUpdateMessage cfg pr with
      | Some updateMessage =>
          if JS.truthy_string updateMessage
          then (true,
                queueMessage updateMessage (Some existingMessageId)
                  (Some (pr_id pr)) (Some repository) s)
          else (true, s)
      | None => (true, s)
      end
  | None =>
      (true,
       queueMessage (formatPullRequestMessage pr) None
         (Some (pr_id pr)) (Some repository) s)
  end.

Definition getAllStoredPRs (s : State) : list MessageStore.StoredPR :=
  MessageStore.getAllPRs (messageStore s).

(** [removePR(+prId, repository)] with its failure logged and dropped. *)
Definition removeFromStore (fs : MessageStore.FsOutcome) (prId : Z)
    (repository : string) (s : State) : State :=
  let '(_, ms) := MessageStore.removePR fs prId repository (messageStore s) in
  mkState (messageQueue s) (isProcessing s) (allocated s) ms.

(** *** Operator messages *)

Definition startupText : string :=
  JS.join JS.nl
    [ "🚀 *PR Bot запущен*";
      "";
      "*Бот отслеживает:*";
      "• Новые pull requests";
      "• Обновления существующих pull requests";
      "";
      "_Проверка каждые 10 минут_" ].

Definition sendStartupMessage (s : State) : bool * State :=
  (true, queueMessage startupText None None None s).

Definition errorText (name message : string) : string :=
  JS.join JS.nl
    [ "❌ *Ошибка*";
      "";
      "*Тип:* " +:+ name;
      "*Сообщение:* " +:+ message;
      "";
      "_Проверьте логи приложения для получения дополнительной информации._" ].

(** [sendError(error)], on the error's [name] and [message]. *)
Definition sendError (name message : string) (s : State) : bool * State :=
  (true, queueMessage (errorText name message) None None None s).

End Pachka.

(** ** Poll cycle (src/bitbucket/bitbucket.service.ts) *)

Module Bitbucket.

Record WorkspaceConfig := mkWorkspace {
  name : string;
  repositories : list string;
}.

(** work-schedule.config: the timezone only selects the local day and hour,
    which are inputs here. *)
Record WorkSchedule := mkWorkSchedule {
  workDays : list Z;
  startHour : Z;
  endHour : Z;
}.

(** The review system as one poll cycle sees it: the reply to the list
    request ([None] when the request fails) and the reply to the status
    request of one pull request. *)
Inductive StatusReply := State (state : string) | StatusRejected (status : option Z).

Record Reader := mkReader {
  list_reply : string → string → option (list PullRequest);
  status_reply : string → string → Z → StatusReply;
}.

Definition isWorkingHours (ws : WorkSchedule) (currentDay currentHour : Z) : bool :=
  if negb (bool_decide (currentDay ∈ workDays ws)) then false
  else bool_decide (startHour ws ≤ currentHour) && bool_decide (currentHour < endHour ws).

Definition getOpenPullRequests (rd : Reader) (workspace repository : string)
  : list PullRequest :=
  match list_reply rd workspace repository with
  | Some values => values
  | None => []
  end.

Definition getPRStatus (rd : Reader) (workspace repository : string) (prId : Z)
  : Result string :=
  match status_reply rd workspace repository prId with
  | State state => Ok state
  | StatusRejected status =>
      if bool_decide (status = Some 404) then Ok "CLOSED"
      else Throw (AxiosError status)
  end.

Definition hasPendingReviewers (pr : PullRequest) : bool :=
  existsb (awaitsReview pr) (pr_reviewers pr).

(** The start-up pass: every open pull request is handed to the chat
    service. *)
Definition processAllRepositories (cfg : Pachka.Config) (rd : Reader)
    (workspaces : list WorkspaceConfig) (s : Pachka.State) : Pachka.State :=
  foldl
    (λ s workspace,
       foldl
         (λ s repository,
            foldl (λ s pr, (Pachka.sendPullRequestNotification cfg pr s).2)
              s (getOpenPullRequests rd (name workspace) repository))
         s (repositories workspace))
    s workspaces.

(** The body of [for (const pr of openPRs)] in [checkPullRequests], on the
    pair of [activePRIds] and the chat service. *)
Definition remind (cfg : Pachka.Config) (acc : gset Z * Pachka.State)
    (pr : PullRequest) : gset Z * Pachka.State :=
  let activePRIds := {[pr_id pr]} ∪ acc.1 in
  let hasUnreviewedChanges := hasPendingReviewers pr in
  if hasUnreviewedChanges
  then (activePRIds, (Pachka.sendPullRequestNotification cfg pr acc.2).2)
  else (activePRIds, acc.2).

(** The body of [for (const storedPR of repositoryStoredPRs)]. *)
Definition sweep (rd : Reader) (fs : Z → MessageStore.FsOutcome)
    (workspace repository : string) (activePRIds : gset Z)
    (s : Pachka.State) (storedPR : MessageStore.StoredPR) : Pachka.State :=
  let prId := MessageStore.sp_prId storedPR in
  if bool_decide (prId ∈ activePRIds) then s
  else
    match getPRStatus rd workspace repository prId with
    | Ok prStatus =>
        if bool_decide (prStatus ≠ "OPEN")
        then Pachka.removeFromStore (fs prId) prId repository s
        else s
    | Throw _ => s
    end.

(** The body of [for (const repository of workspace.repositories)]. *)
Definition checkRepository (cfg : Pachka.Config) (rd : Reader)
    (fs : Z → MessageStore.FsOutcome) (storedPRs : list MessageStore.StoredPR)
    (workspace : string) (acc : gset Z * Pachka.State) (repository : string)
  : gset Z * Pachka.State :=
  let openPRs := getOpenPullRequests rd workspace repository in
  let acc' := foldl (remind cfg) acc openPRs in
  let repositoryStoredPRs :=
    List.filter
      (λ pr, bool_decide (MessageStore.sp_repository pr = repository)) storedPRs in
  (acc'.1, foldl (sweep rd fs workspace repository acc'.1) acc'.2 repositoryStoredPRs).

(** [working] is the value [isWorkingHours()] returned.  Nothing in the
    cycle throws in this model (the list request is caught inside
    [getOpenPullRequests], the status request per stored pull request), so
    the outer [catch] never runs. *)
Definition checkPullRequests (cfg : Pachka.Config) (rd : Reader)
    (fs : Z → MessageStore.FsOutcome) (workspaces : list WorkspaceConfig)
    (working : bool) (s : Pachka.State) : Pachka.State :=
  if negb working then s
  else
    let storedPRs := Pachka.getAllStoredPRs s in
    (foldl
       (λ acc workspace,
          foldl (checkRepository cfg rd fs storedPRs (name workspace))
            acc (repositories workspace))
       (∅, s) workspaces).2.

(** [access workspace] is the message of the error the workspace request
    is rejected with, if it is rejected. *)
Definition validateCredentials (access : string → option string)
    (workspace : string) : Result unit :=
  match access workspace with
  | None => Ok tt
  | Some message =>
      Throw (Error ("Invalid Bitbucket credentials or workspace "
                      +:+ workspace +:+ ": " +:+ message))
  end.

(** [for (const workspace of this.workspaces) await validateCredentials(...)] *)
Fixpoint validateWorkspaces (access : string → option string)
    (workspaces : list WorkspaceConfig) : Result unit :=
  match workspaces with
  | [] => Ok tt
  | workspace :: rest =>
      match validateCredentials access (name workspace) with
      | Throw error => Throw error
      | Ok _ => validateWorkspaces access rest
      end
  end.

(** [error.message]; of the exceptions of this model only [Error] is thrown
    inside [onModuleInit]. *)
Definition messageOf (error : Exn) : string :=
  match error with
  | Error message => message
  | AxiosError _ | FsError => ""
  end.

Definition onModuleInit (cfg : Pachka.Config) (rd : Reader)
    (access : string → option string) (workspaces : list WorkspaceConfig)
    (s : Pachka.State) : Result unit * Pachka.State :=
  match validateWorkspaces access workspaces with
  | Ok _ =>
      let s1 := (Pachka.sendStartupMessage s).2 in
      (Ok tt, processAllRepositories cfg rd workspaces s1)
  | Throw error =>
      let errorMessage :=
        "Failed to initialize BitbucketService: " +:+ messageOf error in
      (Throw error, (Pachka.sendError "Error" errorMessage s).2)
  end.

End Bitbucket.

(** ** The delivery worker and its producers on one timeline

    [processMessageQueue] suspends at its requests; meanwhile the scheduler
    may fire the drain trigger again and a poll cycle may enqueue.  An event
    is one uninterrupted run of code: a trigger (the synchronous prefix of
    [processMessageQueue]), the resumption of the suspended drain once its
    replies are in, or one [queueMessage]. *)

Module Worker.

Record Sys := mkSys {
  svc : Pachka.State;
  (* the local [message] of the suspended [processMessageQueue], if any *)
  held : option (nat * Pachka.QueuedMessage);
}.

Inductive Event :=
| Trigger
| Settled (env : Pachka.Attempt)
| Enqueue (message : string) (parentMessageId : option string)
    (prId : option Z) (repository : option string).

(** One event; the second component is the identity of the queued object
    whose delivery the event starts, if it starts one. *)
Definition step (cfg : Pachka.Config) (ev : Event) (sys : Sys) : Sys * option nat :=
  match ev with
  | Trigger =>
      match Pachka.startDrain (svc sys) with
      | (s, Some cell) => (mkSys s (Some cell), Some cell.1)
      | (s, None) => (mkSys s (held sys), None)
      end
  | Settled env =>
      match held sys with
      | Some cell => (mkSys (Pachka.finishDrain cfg env cell (svc sys)).1 None, None)
      | None => (sys, None)
      end
  | Enqueue message parentMessageId prId repository =>
      (mkSys (Pachka.queueMessage message parentMessageId prId repository (svc sys))
         (held sys), None)
  end.

Definition run (cfg : Pachka.Config) (evs : list Event) (sys : Sys) : Sys :=
  foldl (λ sys ev, (step cfg ev sys).1) sys evs.

(** The service as constructed: empty queue, not processing. *)
Definition initial (ms : MessageStore.State) : Sys :=
  mkSys (Pachka.mkState [] false 0 ms) None.

End Worker.

(** ** The words of the specification *)

(** Every reviewer has a participation record with [approved = true]; the
    record of a reviewer is the one the renderer's lookup resolves. *)
Definition ApprovedByAll (pr : PullRequest) : Prop :=
  ∀ reviewer, reviewer ∈ pr_reviewers pr →
    ∃ p, participantInfo pr reviewer = Some p ∧ p_approved p = true.

(** A reviewer is pending: no matching participation record, or a record
    that is not approved and whose state is not changes_requested. *)
Definition Pending (pr : PullRequest) (reviewer : BitbucketUser) : Prop :=
  participantInfo pr reviewer = None
  ∨ ∃ p, participantInfo pr reviewer = Some p
         ∧ p_approved p = false ∧ p_state p ≠ Some st_changes_requested.

(** At most one participation record per identity (the data model's
    invariant on snapshots). *)
Definition OneRecordPerIdentity (pr : PullRequest) : Prop :=
  NoDup ((λ p, account_id (p_user p)) <$> pr_participants pr).

(** A queued message with its retry counter at [n]. *)
Definition withRetries (n : nat) (m : Pachka.QueuedMessage) : Pachka.QueuedMessage :=
  Pachka.mkQueuedMessage (Pachka.message m) (Pachka.parentMessageId m)
    (Pachka.prId m) (Pachka.repository m) n.

(** The gateway answers the attempt on [msg] with a 429: on the post, or,
    for a root post that returned an id, on the thread creation. *)
Definition rateLimited (env : Pachka.Attempt) (msg : Pachka.QueuedMessage) : bool :=
  match Pachka.on_message env with
  | Pachka.Rejected status => bool_decide (status = Some 429)
  | Pachka.Reply id =>
      negb (JS.truthy_opt_string (Pachka.parentMessageId msg))
      && Pachka.truthy_id id
      && match Pachka.on_thread env with
         | Pachka.Rejected status => bool_decide (status = Some 429)
         | Pachka.Reply _ => false
         end
  end.

(** The repositories of a configuration in the order the cycle polls them,
    and the ids a cycle has seen open after polling a list of them. *)
Definition polled (workspaces : list Bitbucket.WorkspaceConfig)
  : list (string * string) :=
  workspaces ≫= λ w, (λ r, (Bitbucket.name w, r)) <$> Bitbucket.repositories w.

Definition seenOpen (rd : Bitbucket.Reader) (repos : list (string * string))
  : list Z :=
  repos ≫= λ wr, pr_id <$> Bitbucket.getOpenPullRequests rd wr.1 wr.2.

(** What every reachable state of the worker satisfies: queued objects
    have distinct identities, all allocated; a suspended drain holds the
    head of the queue and has the flag set; with no drain suspended the
    flag is clear. *)
Definition Inv (sys : Worker.Sys) : Prop :=
  NoDup (Pachka.messageQueue (Worker.svc sys)).*1
  ∧ (∀ r, r ∈ (Pachka.messageQueue (Worker.svc sys)).*1 →
          (r < Pachka.allocated (Worker.svc sys))%nat)
  ∧ match Worker.held sys with
    | Some cell =>
        Pachka.isProcessing (Worker.svc sys) = true
        ∧ head (Pachka.messageQueue (Worker.svc sys)) = Some cell
    | None => Pachka.isProcessing (Worker.svc sys) = false
    end.

(** The status request for a pull request returns a state other than OPEN,
    or is rejected as not found. *)
Definition reportedClosed (rd : Bitbucket.Reader) (w repo : string) (k : Z) : Prop :=
  (∃ st, Bitbucket.status_reply rd w repo k = Bitbucket.State st ∧ st ≠ "OPEN")
  ∨ Bitbucket.status_reply rd w repo k = Bitbucket.StatusRejected (Some 404).

(** One repository of the cycle, as a step over [polled]. *)
Definition cycleStep (cfg : Pachka.Config) (rd : Bitbucket.Reader)
    (fs : Z → MessageStore.FsOutcome) (stored : list MessageStore.StoredPR)
    (acc : gset Z * Pachka.State) (wr : string * string) : gset Z * Pachka.State :=
  Bitbucket.checkRepository cfg rd fs stored wr.1 acc wr.2.

(** Consecutive drains with nothing interleaved: the final state and the
    requests of each drain. *)
Fixpoint drains (cfg : Pachka.Config) (envs : list Pachka.Attempt) (s : Pachka.State)
  : Pachka.State * list (list Pachka.Request) :=
  match envs with
  | [] => (s, [])
  | env :: envs =>
      let out := Pachka.processMessageQueue cfg env s in
      let rest := drains cfg envs out.1 in
      (rest.1, out.2 :: rest.2)
  end.

(** Neither request of the attempt is answered with a 429. *)
Definition no429 (env : Pachka.Attempt) : Prop :=
  Pachka.on_message env ≠ Pachka.Rejected (Some 429)
  ∧ Pachka.on_thread env ≠ Pachka.Rejected (Some 429).

(** Every record of the store has a non-zero id and non-empty thread id and
    repository. *)
Definition WellFormed (m : gmap Z MessageStore.Entry) : Prop :=
  ∀ k e, m !! k = Some e →
    k ≠ 0 ∧ MessageStore.messageId e ≠ "" ∧ MessageStore.repository e ≠ "".

(** What a poll pass may do to the chat service: append to the queue. *)
Definition appendsOnly (s s' : Pachka.State) : Prop :=
  Pachka.messageQueue s `prefix_of` Pachka.messageQueue s'
  ∧ Pachka.isProcessing s' = Pachka.isProcessing s.

(** A status check that does not report the pull request closed: the id is
    in the repository's open-list, or the status request answers OPEN, or it
    fails otherwise than with a 404. *)
Definition notReportedClosed (rd : Bitbucket.Reader) (k : Z) (wr : string * string)
  : Prop :=
  k ∈ pr_id <$> Bitbucket.getOpenPullRequests rd wr.1 wr.2
  ∨ Bitbucket.status_reply rd wr.1 wr.2 k = Bitbucket.State "OPEN"
  ∨ ∃ status, Bitbucket.status_reply rd wr.1 wr.2 k = Bitbucket.StatusRejected status
              ∧ status ≠ Some 404.

(** ** Sample data

    The scenarios of the specification, as concrete inputs. *)

Module Sample.

Definition alice : BitbucketUser := mkUser "Alice" "acc-a".
Definition bob : BitbucketUser := mkUser "Bob" "acc-b".
Definition carol : BitbucketUser := mkUser "Carol" "acc-c".

Definition cfg : Pachka.Config :=
  Pachka.mkConfig "chat-1" {[ "Bob" := "@bob" ]}.

Definition snapshot (id : Z) (reviewers : list BitbucketUser)
    (participants : list Participant) : PullRequest :=
  mkPullRequest id "Fix login" "" OPEN carol reviewers participants
    "feature" "team/app" "main" "https://example.org/pr".

(** Alice and Bob are reviewers; both have approved. *)
Definition approved : PullRequest :=
  snapshot 1 [alice; bob]
    [ mkParticipant alice REVIEWER true (Some st_approved);
      mkParticipant bob REVIEWER true (Some st_approved) ].

(** Alice has approved, Bob has not answered. *)
Definition waiting : PullRequest :=
  snapshot 1 [alice; bob]
    [ mkParticipant alice REVIEWER true (Some st_approved);
      mkParticipant bob REVIEWER false (Some st_pending) ].

Definition unreviewed : PullRequest := snapshot 1 [] [].

(** Two records for Alice, against the data model's invariant: the first
    not approved, the second approved. *)
Definition duplicated : PullRequest :=
  snapshot 1 [alice]
    [ mkParticipant alice REVIEWER false (Some st_pending);
      mkParticipant alice REVIEWER true (Some st_approved) ].

(** Pull request 5 of another repository. *)
Definition other : PullRequest :=
  mkPullRequest 5 "Bump" "" OPEN carol [alice] [] "dep" "app" "main"
    "https://example.org/pr5".

Definition noStore : MessageStore.State := MessageStore.mkState ∅ ∅.

(** A thread is recorded for pull request 1, under repository "app". *)
Definition threaded : MessageStore.State :=
  let m := {[ 1 := MessageStore.mkEntry "thread-1" "app" "2024-01-01T00:00:00.000Z" ]} in
  MessageStore.mkState m m.

(** A thread is recorded for pull request 5, under repository "lib". *)
Definition tracked : MessageStore.State :=
  let m := {[ 5 := MessageStore.mkEntry "thread-5" "lib" "2024-01-01T00:00:00.000Z" ]} in
  MessageStore.mkState m m.

Definition service (ms : MessageStore.State) : Pachka.State :=
  Pachka.mkState [] false 0 ms.

Definition first : Pachka.QueuedMessage :=
  Pachka.mkQueuedMessage "first" None (Some 1) (Some "team/app") 0.
Definition second : Pachka.QueuedMessage :=
  Pachka.mkQueuedMessage "second" (Some "thread-9") None None 0.

(** Two messages queued, nothing in flight. *)
Definition queued : Pachka.State :=
  Pachka.mkState [(0%nat, first); (1%nat, second)] false 2 noStore.

(** The gateway answers 429; the gateway answers with a body that has no id. *)
Definition busy : Pachka.Attempt :=
  Pachka.mkAttempt (Pachka.Rejected (Some 429)) (Pachka.Rejected None)
    MessageStore.FsOk "2024-01-02T00:00:00.000Z".
Definition blank : Pachka.Attempt :=
  Pachka.mkAttempt (Pachka.Reply Pachka.IdMissing) (Pachka.Reply Pachka.IdMissing)
    MessageStore.FsOk "2024-01-02T00:00:00.000Z".

(** The gateway rejects the post with a 500; the gateway accepts the root
    post and answers the thread creation with a 429. *)
Definition refused : Pachka.Attempt :=
  Pachka.mkAttempt (Pachka.Rejected (Some 500)) (Pachka.Rejected None)
    MessageStore.FsOk "2024-01-02T00:00:00.000Z".

(** The gateway accepts the root post as message 41 and creates thread 42. *)
Definition accepted : Pachka.Attempt :=
  Pachka.mkAttempt (Pachka.Reply (Pachka.IdNumber 41)) (Pachka.Reply (Pachka.IdNumber 42))
    MessageStore.FsOk "2024-01-02T00:00:00.000Z".

(** A reviewer whose display name is a property every object inherits, not
    in the mapping and without a participation record. *)
Definition constructorUser : BitbucketUser := mkUser "constructor" "acc-k".
Definition namedLikeAProperty : PullRequest := snapshot 1 [constructorUser] [].

Definition disk (prId : Z) : MessageStore.FsOutcome := MessageStore.FsOk.

(** One workspace with one repository, whose open-list holds the approved
    snapshot. *)
Definition oneRepo : list Bitbucket.WorkspaceConfig :=
  [Bitbucket.mkWorkspace "team" ["app"]].
Definition readerApproved : Bitbucket.Reader :=
  Bitbucket.mkReader (λ _ _, Some [approved]) (λ _ _ _, Bitbucket.State "OPEN").

(** One workspace with two repositories: "app" has pull request 5 open,
    "lib" has none open, and its pull request 5 is reported MERGED. *)
Definition twoRepos : list Bitbucket.WorkspaceConfig :=
  [Bitbucket.mkWorkspace "team" ["app"; "lib"]].
Definition readerMerged : Bitbucket.Reader :=
  Bitbucket.mkReader
    (λ _ repository, if bool_decide (repository = "app") then Some [other] else Some [])
    (λ _ _ _, Bitbucket.State "MERGED").

(** The open-list of every repository holds the snapshot that waits for
    Bob, of repository "team/app". *)
Definition readerWaiting : Bitbucket.Reader :=
  Bitbucket.mkReader (λ _ _, Some [waiting]) (λ _ _ _, Bitbucket.State "OPEN").

(** The same, with nothing open in "app" either. *)
Definition readerQuiet : Bitbucket.Reader :=
  Bitbucket.mkReader (λ _ _, Some []) (λ _ _ _, Bitbucket.State "MERGED").

End Sample.

(** * Properties *)

(** ** Renderer *)

Section Renderer.
Context (cfg : Pachka.Config).
Implicit Types (pr : PullRequest) (reviewer : BitbucketUser).

Lemma awaitsReview_Pending pr reviewer :
  awaitsReview pr reviewer = true ↔ Pending pr reviewer.
Proof.
  unfold awaitsReview, Pending, approvedOf, changesRequested.
  destruct (participantInfo pr reviewer) as [p|]; simpl.
  - rewrite andb_true_iff, !negb_true_iff, bool_decide_eq_false. split.
    + intros [Ha Hs]. right. by exists p.
    + intros [|(q & [= <-] & Ha & Hs)]; done.
  - split; [by left | done].
Qed.

Lemma approved_not_awaiting pr reviewer :
  approvedOf (participantInfo pr reviewer) = true → awaitsReview pr reviewer = false.
Proof. unfold awaitsReview. by intros ->. Qed.

Lemma ApprovedByAll_forallb pr :
  ApprovedByAll pr →
  forallb (λ reviewer, approvedOf (participantInfo pr reviewer)) (pr_reviewers pr) = true.
Proof.
  intros Hall. apply forallb_forall. intros r Hr%list_elem_of_In.
  destruct (Hall r Hr) as (p & -> & Hp). done.
Qed.

Lemma ApprovedByAll_filter pr :
  ApprovedByAll pr → List.filter (awaitsReview pr) (pr_reviewers pr) = [].
Proof.
  intros Hall. unfold ApprovedByAll in Hall.
  induction (pr_reviewers pr) as [|r rs IH]; [done|]. simpl.
  destruct (Hall r) as (p & Hp & Ha); [left|].
  rewrite approved_not_awaiting by (by rewrite Hp).
  apply IH. intros r' Hr'. apply Hall. by right.
Qed.

Lemma ApprovedByAll_no_pending pr :
  ApprovedByAll pr → Pachka.hasPendingReviewers pr = false.
Proof.
  intros Hall. unfold Pachka.hasPendingReviewers.
  apply not_true_is_false. intros (r & Hr & Hw)%existsb_exists.
  apply list_elem_of_In in Hr. destruct (Hall r Hr) as (p & Hp & Ha).
  rewrite approved_not_awaiting in Hw by (by rewrite Hp). done.
Qed.

(** Under the data model's invariant any matching record is the one the
    lookup resolves. *)
Lemma participantInfo_unique pr reviewer p :
  OneRecordPerIdentity pr →
  p ∈ pr_participants pr →
  account_id (p_user p) = account_id reviewer →
  participantInfo pr reviewer = Some p.
Proof.
  unfold OneRecordPerIdentity, participantInfo.
  induction (pr_participants pr) as [|q qs IH]; intros Hnd Hin Hid.
  - by apply elem_of_nil in Hin.
  - simpl in *. apply NoDup_cons in Hnd as [Hq Hnd].
    case_bool_decide as Hqid.
    + apply elem_of_cons in Hin as [->|Hin]; [done|].
      exfalso. apply Hq. apply list_elem_of_fmap. exists p. split; [congruence|done].
    + apply elem_of_cons in Hin as [->|Hin]; [done|]. by apply IH.
Qed.


Lemma reminderText_nonempty pr names : Pachka.reminderText pr names ≠ "".
Proof.
  intros H. apply (f_equal (String.get 0)) in H.
  unfold Pachka.reminderText, JS.join in H. cbn in H. discriminate H.
Qed.

Lemma allApprovedText_nonempty pr : Pachka.allApprovedText cfg pr ≠ "".
Proof.
  intros H. apply (f_equal (String.get 0)) in H.
  unfold Pachka.allApprovedText, JS.join in H. cbn in H. discriminate H.
Qed.

Lemma filter_sublist {A} (f : A → bool) (l : list A) : sublist (List.filter f l) l.
Proof.
  induction l as [|x l IH]; simpl; [constructor|].
  destruct (f x); by constructor.
Qed.

(** C6.  A snapshot with no reviewers, for which a thread exists, gets no
    update: the renderer returns null, because the all-approved test asks
    for a non-empty reviewer list and the list of pending reviewers is
    empty; handing the snapshot to the chat service queues nothing. *)
Theorem no_reviewers_no_update pr :
  pr_reviewers pr = [] →
  Pachka.formatPullRequestUpdateMessage cfg pr = None
  ∧ Pachka.allReviewersApproved pr = false
  ∧ Pachka.pendingReviewers cfg pr = []
  ∧ ∀ s threadId,
      MessageStore.getMessageId (pr_id pr) (Pachka.messageStore s) = Some threadId →
      Pachka.sendPullRequestNotification cfg pr s = (true, s).
Proof.
  intros Hnil.
  assert (Hall : Pachka.allReviewersApproved pr = false).
  { unfold Pachka.allReviewersApproved. rewrite Hnil. done. }
  assert (Hpend : Pachka.pendingReviewers cfg pr = []).
  { unfold Pachka.pendingReviewers. by rewrite Hnil. }
  assert (Hfmt : Pachka.formatPullRequestUpdateMessage cfg pr = None).
  { unfold Pachka.formatPullRequestUpdateMessage.
    by rewrite Hall, andb_false_r, Hpend. }
  split_and!; try done.
  intros s threadId Hthread. unfold Pachka.sendPullRequestNotification.
  by rewrite Hthread, Hfmt.
Qed.

Lemma update_all_approved pr :
  pr_reviewers pr ≠ [] →
  pr_state pr = OPEN →
  ApprovedByAll pr →
  Pachka.formatPullRequestUpdateMessage cfg pr = Some (Pachka.allApprovedText cfg pr).
Proof.
  intros Hne Hopen Hall.
  unfold Pachka.formatPullRequestUpdateMessage, Pachka.allReviewersApproved.
  rewrite ApprovedByAll_forallb by done.
  by rewrite !bool_decide_eq_true_2.
Qed.


Lemma inherited_truthy name text :
  JS.inherited name = Some text → JS.truthy_string text = true.
Proof.
  unfold JS.inherited.
  repeat case_bool_decide; intros [= <-];
    unfold JS.truthy_string, JS.nativeFunction; by apply bool_decide_eq_true_2.
Qed.

(** The four ways the mapping answers for a name. *)
Lemma withMention_cases name :
  (∀ mention, Pachka.reviewerMappings cfg !! name = Some mention → mention ≠ "" →
              Pachka.withMention cfg name = name +:+ " - " +:+ mention)
  ∧ (Pachka.reviewerMappings cfg !! name = Some "" →
     Pachka.withMention cfg name = name)
  ∧ (Pachka.reviewerMappings cfg !! name = None → JS.inherited name = None →
     Pachka.withMention cfg name = name)
  ∧ (∀ text, Pachka.reviewerMappings cfg !! name = None →
             JS.inherited name = Some text →
             Pachka.withMention cfg name = name +:+ " - " +:+ text).
Proof.
  unfold Pachka.withMention, JS.getProperty. split_and!.
  - intros mention -> Hne. unfold JS.truthy_string. by rewrite bool_decide_eq_true_2.
  - by intros ->.
  - by intros -> ->.
  - intros text -> Hin. rewrite Hin. by rewrite (inherited_truthy name text Hin).
Qed.

(** X28.  With a pending reviewer the all-approved test fails, and the
    renderer returns the reminder: its two heading lines, an empty line, the line
    that announces the list, one bullet per pending reviewer in the order
    of the snapshot's reviewer list, an empty line and the link.  A bullet
    shows the name followed by its mention when the mapping has a non-empty
    entry of its own for the name; the name alone when that entry is empty,
    or when there is none and the name is no property inherited from
    [Object.prototype]; and the name followed by the text of the inherited
    value when there is no entry and the name is such a property. *)
Theorem reminder_lists_pending_reviewers pr :
  (∃ reviewer, reviewer ∈ pr_reviewers pr ∧ Pending pr reviewer) →
  let waiting := List.filter (awaitsReview pr) (pr_reviewers pr) in
  Pachka.allReviewersApproved pr = false
  ∧ Pachka.formatPullRequestUpdateMessage cfg pr
    = Some (JS.join JS.nl
              ([ "🔄 Напоминание о ревью";
                 "PR: " +:+ pr_title pr;
                 "";
                 "Ожидается ревью от:" ]
               ++ ((λ reviewer, "• " +:+ Pachka.withMention cfg (display_name reviewer))
                     <$> waiting)
               ++ [ ""; "🔗 " +:+ pr_href pr ])%list)
  ∧ (∀ reviewer, reviewer ∈ waiting ↔ reviewer ∈ pr_reviewers pr ∧ Pending pr reviewer)
  ∧ sublist waiting (pr_reviewers pr)
  ∧ (∀ name mention, Pachka.reviewerMappings cfg !! name = Some mention →
             mention ≠ "" →
             Pachka.withMention cfg name = name +:+ " - " +:+ mention)
  ∧ (∀ name, Pachka.reviewerMappings cfg !! name = Some "" →
             Pachka.withMention cfg name = name)
  ∧ (∀ name, Pachka.reviewerMappings cfg !! name = None → JS.inherited name = None →
             Pachka.withMention cfg name = name)
  ∧ (∀ name text, Pachka.reviewerMappings cfg !! name = None →
             JS.inherited name = Some text →
             Pachka.withMention cfg name = name +:+ " - " +:+ text).
Proof.
  intros (r & Hr & Hpend) waiting.
  assert (Hmem : ∀ reviewer,
             reviewer ∈ waiting ↔ reviewer ∈ pr_reviewers pr ∧ Pending pr reviewer).
  { intros x. unfold waiting.
    rewrite list_elem_of_In, filter_In, <- list_elem_of_In, awaitsReview_Pending. done. }
  assert (Hw : r ∈ waiting) by (by apply Hmem).
  assert (Hall : Pachka.allReviewersApproved pr = false).
  { unfold Pachka.allReviewersApproved. apply andb_false_iff. right.
    apply not_true_is_false. intros Hfa.
    rewrite forallb_forall in Hfa. specialize (Hfa r).
    rewrite <- list_elem_of_In in Hfa. specialize (Hfa Hr).
    apply awaitsReview_Pending in Hpend. unfold awaitsReview in Hpend.
    rewrite Hfa in Hpend. done. }
  split_and!.
  - done.
  - unfold Pachka.formatPullRequestUpdateMessage.
    rewrite Hall, andb_false_r. unfold Pachka.pendingReviewers. fold waiting.
    destruct waiting as [|w ws]; [by apply elem_of_nil in Hw|].
    rewrite fmap_cons. unfold Pachka.reminderText.
    rewrite <- (fmap_cons (λ reviewer, Pachka.withMention cfg (display_name reviewer))).
    by rewrite <- list_fmap_compose.
  - done.
  - apply filter_sublist.
  - intros name. apply (withMention_cases name).
  - intros name. apply (withMention_cases name).
  - intros name. apply (withMention_cases name).
  - intros name. apply (withMention_cases name).
Qed.

End Renderer.

(** ** Thread store *)

Section ThreadStore.
Import MessageStore.
Implicit Types (s : State) (fs : FsOutcome).

(** Saving never touches the in-memory store, and throws only the file
    system's failure. *)
Lemma saveStore_store fs s : store (saveStore fs s).2 = store s.
Proof. by destruct fs. Qed.

Lemma saveStore_throws fs s e : (saveStore fs s).1 = Throw e → e = FsError.
Proof. destruct fs; simpl; congruence. Qed.

Lemma getMessageId_insert prId t r now m f :
  t ≠ "" → getMessageId prId (mkState (<[prId := mkEntry t r now]> m) f) = Some t.
Proof.
  intros Ht. unfold getMessageId. simpl. rewrite lookup_insert_eq. simpl.
  unfold JS.truthy_string. by rewrite bool_decide_eq_true_2.
Qed.

(** A well-formed [put]: the record is in memory whatever the disk does,
    and only the disk can make the call throw. *)
Lemma saveMessageId_valid fs now prId t r s :
  prId ≠ 0 → t ≠ "" → r ≠ "" →
  let out := saveMessageId fs now prId (Some t) r s in
  store out.2 = <[prId := mkEntry t r now]> (store s)
  ∧ getMessageId prId out.2 = Some t
  ∧ (fs = FsOk → out = (Ok tt, mkState (<[prId := mkEntry t r now]> (store s))
                                 (<[prId := mkEntry t r now]> (store s))))
  ∧ (∀ e, out.1 = Throw e → e = FsError ∧ fs ≠ FsOk).
Proof.
  intros Hid Ht Hr. unfold saveMessageId. simpl.
  unfold JS.truthy_string, JS.truthy_number.
  rewrite !bool_decide_eq_true_2 by done. simpl.
  destruct fs; simpl.
  - rewrite getMessageId_insert by done.
    rewrite bool_decide_eq_false_2 by (by intros []). simpl.
    split_and!; try done.
    by apply getMessageId_insert.
  - split_and!; try done.
    + by apply getMessageId_insert.
    + by intros e [= <-].
  - split_and!; try done.
    + by apply getMessageId_insert.
    + by intros e [= <-].
Qed.

(** C7.  [put(id, t, r)] twice, with a non-zero id and non-empty thread id
    and repository: the lookup of the id after the second call is the
    lookup after the first (the thread id [t]); neither call throws as long
    as the file operations succeed, and a call that throws does so with the
    file system's failure, never with the validation or the verification
    error. *)
Theorem put_twice_same_lookup fs1 fs2 now1 now2 prId t r s :
  prId ≠ 0 → t ≠ "" → r ≠ "" →
  let first := saveMessageId fs1 now1 prId (Some t) r s in
  let second := saveMessageId fs2 now2 prId (Some t) r first.2 in
  getMessageId prId second.2 = getMessageId prId first.2
  ∧ getMessageId prId first.2 = Some t
  ∧ (fs1 = FsOk → first.1 = Ok tt)
  ∧ (fs2 = FsOk → second.1 = Ok tt)
  ∧ (∀ e, first.1 = Throw e ∨ second.1 = Throw e → e = FsError)
  ∧ (now1 = now2 → store second.2 = store first.2).
Proof.
  intros Hid Ht Hr first second.
  destruct (saveMessageId_valid fs1 now1 prId t r s Hid Ht Hr)
    as (Hst1 & Hget1 & Hok1 & Hthrow1).
  destruct (saveMessageId_valid fs2 now2 prId t r first.2 Hid Ht Hr)
    as (Hst2 & Hget2 & Hok2 & Hthrow2).
  fold first in Hst1, Hget1, Hok1, Hthrow1.
  fold second in Hst2, Hget2, Hok2, Hthrow2.
  split_and!.
  - by rewrite Hget2, Hget1.
  - done.
  - intros Hfs. by rewrite (Hok1 Hfs).
  - intros Hfs. by rewrite (Hok2 Hfs).
  - intros e [H|H]; [by apply Hthrow1 in H as []|by apply Hthrow2 in H as []].
  - intros <-. rewrite Hst2, Hst1. by rewrite insert_insert_eq.
Qed.

(** C8.  [remove(id, r)] returns without throwing and leaves the store, in
    memory and on disk, as it was when no record exists for the id and
    when the stored record belongs to another repository.  Otherwise the
    record is deleted in memory, the store is written out, and the call
    ends with the verification, which throws exactly when the id still
    reads back. *)
Theorem remove_noop_or_verified_delete fs prId r s :
  (store s !! prId = None → removePR fs prId r s = (Ok tt, s))
  ∧ (∀ e, store s !! prId = Some e → repository e ≠ r →
          removePR fs prId r s = (Ok tt, s))
  ∧ (∀ e, store s !! prId = Some e → repository e = r →
          store (removePR fs prId r s).2 = delete prId (store s)
          ∧ (fs = FsOk →
             let s' := mkState (delete prId (store s)) (delete prId (store s)) in
             removePR fs prId r s = (verifyRemoved prId s', s')
             ∧ verifyRemoved prId s' = Ok tt)
          ∧ (∀ err, (removePR fs prId r s).1 = Throw err → err = FsError))
  ∧ (∀ s', verifyRemoved prId s' = Throw (Error "PR removal verification failed")
           ↔ is_Some (store s' !! prId)).
Proof.
  split_and!.
  - intros Hnone. unfold removePR. by rewrite Hnone.
  - intros e He Hr. unfold removePR. rewrite He.
    by rewrite bool_decide_eq_true_2.
  - intros e He Hr. unfold removePR. rewrite He.
    rewrite bool_decide_eq_false_2 by (by intros ?).
    destruct fs; simpl; unfold verifyRemoved; simpl; rewrite ?lookup_delete_eq;
      split_and!; try done; by intros err [= <-].
  - intros s'. unfold verifyRemoved.
    destruct (store s' !! prId) as [e|].
    + split; [by eexists|done].
    + split; [done|by intros []].
Qed.

End ThreadStore.

(** ** Delivery queue *)

Section DeliveryQueue.
Import Pachka.
Context (cfg : Config).
Implicit Types (s : State) (q rest : list (nat * QueuedMessage)) (m : QueuedMessage).

Lemma bump_other ref rest : ref ∉ rest.*1 → bump ref rest = rest.
Proof.
  unfold bump. induction rest as [|[r m] rest IH]; intros Hnot; [done|].
  rewrite fmap_cons in *. apply not_elem_of_cons in Hnot as [Hne Hnot]. simpl in *.
  rewrite bool_decide_eq_false_2 by done. f_equal. by apply IH.
Qed.

Lemma bump_head ref m rest :
  ref ∉ rest.*1 →
  bump ref ((ref, m) :: rest) = (ref, withRetries (S (retries m)) m) :: rest.
Proof.
  intros Hnot. change (bump ref ((ref, m) :: rest))
    with ((if bool_decide (ref = ref)
           then (ref, withRetries (S (retries m)) m) else (ref, m)) :: bump ref rest).
  rewrite bool_decide_eq_true_2 by done. by rewrite bump_other.
Qed.

Lemma bump_ids ref q : (bump ref q).*1 = q.*1.
Proof.
  unfold bump. induction q as [|[r m] q IH]; [done|].
  rewrite !fmap_cons, IH. simpl. by case_bool_decide.
Qed.

(** A rate-limited attempt throws the 429 and leaves the store alone. *)
Lemma deliver_rateLimited env m ms :
  rateLimited env m = true →
  ∃ calls, deliver cfg env m ms = (Throw (AxiosError (Some 429)), ms, calls).
Proof.
  unfold rateLimited, deliver.
  destruct (on_message env) as [id|status].
  - intros [[Hroot%negb_true_iff Hid]%andb_true_iff Hthread]%andb_true_iff.
    rewrite Hroot, Hid.
    destruct (on_thread env) as [|status]; [done|].
    apply bool_decide_eq_true in Hthread as ->. by eexists.
  - intros ->%bool_decide_eq_true. destruct (JS.truthy_opt_string _); by eexists.
Qed.

(** The first request of any attempt posts the text of the attempted
    message. *)
Lemma deliver_first_request env m ms :
  ∃ entity_type entity_id more,
    (deliver cfg env m ms).2 = PostMessage (message m) entity_type entity_id :: more.
Proof.
  unfold deliver.
  repeat (first [ by eauto | case_match; simpl ]).
Qed.

Lemma drain_rateLimited env s ref m rest :
  isProcessing s = false →
  messageQueue s = (ref, m) :: rest →
  ref ∉ rest.*1 →
  rateLimited env m = true →
  (processMessageQueue cfg env s).1
  = mkState
      (if bool_decide (retries m < MAX_RETRIES)%nat
       then (ref, withRetries (S (retries m)) m) :: rest
       else rest)
      false (allocated s) (messageStore s).
Proof.
  intros Hidle Hq Hfresh Hlim. unfold processMessageQueue. rewrite Hidle, Hq.
  destruct (deliver_rateLimited env m (messageStore s) Hlim) as [calls ->].
  cbn [fst settle responseStatus]. rewrite (bool_decide_eq_true_2 (Some 429 = Some 429)) by done.
  case_bool_decide; [by rewrite bump_head|done].
Qed.

(** The atomic run is a trigger followed at once by its resumption. *)
Lemma processMessageQueue_split env s :
  processMessageQueue cfg env s
  = match startDrain s with
    | (s', Some cell) => finishDrain cfg env cell s'
    | (s', None) => (s', [])
    end.
Proof.
  unfold processMessageQueue, startDrain, finishDrain.
  destruct (isProcessing s); [done|].
  destruct (messageQueue s) as [|[ref m] rest]; done.
Qed.

(** C3, as the code has it.  A head item whose counter starts at 0 and
    whose delivery is answered with a 429 on consecutive drain attempts
    stays at the head through the first three (its counter reaching 1, 2
    and 3, the items behind it untouched) and is dropped by the fourth;
    the drain after that attempts the item that followed it. *)
Theorem rate_limited_head_dropped_by_fourth_attempt e1 e2 e3 e4 e5 s ref m rest :
  isProcessing s = false →
  messageQueue s = (ref, m) :: rest →
  ref ∉ rest.*1 →
  retries m = 0%nat →
  rateLimited e1 m = true → rateLimited e2 m = true →
  rateLimited e3 m = true → rateLimited e4 m = true →
  let s1 := (processMessageQueue cfg e1 s).1 in
  let s2 := (processMessageQueue cfg e2 s1).1 in
  let s3 := (processMessageQueue cfg e3 s2).1 in
  let s4 := (processMessageQueue cfg e4 s3).1 in
  messageQueue s1 = (ref, withRetries 1 m) :: rest
  ∧ messageQueue s2 = (ref, withRetries 2 m) :: rest
  ∧ messageQueue s3 = (ref, withRetries 3 m) :: rest
  ∧ messageQueue s4 = rest
  ∧ isProcessing s4 = false
  ∧ messageStore s4 = messageStore s
  ∧ ∀ ref' m' rest', rest = (ref', m') :: rest' →
      ∃ entity_type entity_id more,
        (processMessageQueue cfg e5 s4).2
        = PostMessage (message m') entity_type entity_id :: more.
Proof.
  intros Hidle Hq Hfresh H0 H1 H2 H3 H4 s1 s2 s3 s4.
  assert (E1 : s1 = mkState ((ref, withRetries 1 m) :: rest) false
                      (allocated s) (messageStore s)).
  { unfold s1. rewrite (drain_rateLimited e1 s ref m rest) by done.
    rewrite H0. done. }
  assert (E2 : s2 = mkState ((ref, withRetries 2 m) :: rest) false
                      (allocated s) (messageStore s)).
  { unfold s2. rewrite E1.
    rewrite (drain_rateLimited e2 _ ref (withRetries 1 m) rest) by done. done. }
  assert (E3 : s3 = mkState ((ref, withRetries 3 m) :: rest) false
                      (allocated s) (messageStore s)).
  { unfold s3. rewrite E2.
    rewrite (drain_rateLimited e3 _ ref (withRetries 2 m) rest) by done. done. }
  assert (E4 : s4 = mkState rest false (allocated s) (messageStore s)).
  { unfold s4. rewrite E3.
    rewrite (drain_rateLimited e4 _ ref (withRetries 3 m) rest) by done. done. }
  rewrite E1, E2, E3, E4. split_and!; try done.
  intros ref' m' rest' ->. unfold processMessageQueue. simpl.
  destruct (deliver_first_request e5 m' (messageStore s)) as (t & i & more & Hd).
  destruct (deliver cfg e5 m' (messageStore s)) as [[outcome ms] calls].
  simpl in *. eauto.
Qed.

(** C10.  A root post whose response carries no message id counts as
    delivered: the only request sent is the post itself (no thread is
    created), the head item leaves the queue, and the store is as it was,
    in memory and on disk.  A pull request that had no thread before has
    none after, and handing its snapshot to the chat service again queues
    the new-pull-request root message. *)
Theorem root_post_without_id_is_dropped env s ref m rest :
  isProcessing s = false →
  messageQueue s = (ref, m) :: rest →
  JS.truthy_opt_string (parentMessageId m) = false →
  (∃ id, on_message env = Reply id ∧ truthy_id id = false) →
  let out := processMessageQueue cfg env s in
  out.2 = [PostMessage (message m) "discussion" (chatId cfg)]
  ∧ messageQueue out.1 = rest
  ∧ isProcessing out.1 = false
  ∧ messageStore out.1 = messageStore s
  ∧ ∀ pr,
      MessageStore.getMessageId (pr_id pr) (messageStore s) = None →
      MessageStore.getMessageId (pr_id pr) (messageStore out.1) = None
      ∧ sendPullRequestNotification cfg pr out.1
        = (true,
           queueMessage (formatPullRequestMessage pr) None
             (Some (pr_id pr)) (Some (pr_source_repository pr)) out.1).
Proof.
  intros Hidle Hq Hroot (id & Hreply & Hid) out.
  assert (Hout : out = (mkState rest false (allocated s) (messageStore s),
                        [PostMessage (message m) "discussion" (chatId cfg)])).
  { unfold out, processMessageQueue, deliver.
    by rewrite Hidle, Hq, Hroot, Hreply, Hid. }
  rewrite Hout. simpl. split_and!; try done.
  intros pr Hnone. split; [done|].
  unfold sendPullRequestNotification. simpl. by rewrite Hnone.
Qed.

End DeliveryQueue.

(** ** Head-of-line delivery *)

Section HeadOfLine.
Import Pachka Worker.
Context (cfg : Config).
Implicit Types (sys : Sys) (ev : Event).

Lemma Inv_initial ms : Inv (initial ms).
Proof.
  unfold Inv, initial. simpl. split_and!; [constructor| |done].
  intros r Hr. by apply elem_of_nil in Hr.
Qed.

Lemma settle_ids outcome ref m q :
  (settle outcome ref m q).*1 = q.*1 ∨ (settle outcome ref m q).*1 = tail (q.*1).
Proof.
  assert (Hshift : (shift q).*1 = tail (q.*1)) by (by destruct q).
  unfold settle. destruct outcome as [|e]; [by right|].
  repeat case_bool_decide; try (by right). left. apply bump_ids.
Qed.

Lemma Inv_step ev sys : Inv sys → Inv (step cfg ev sys).1.
Proof.
  destruct sys as [s h]. intros Hinv. pose proof Hinv as (Hnd & Hlt & Hheld).
  simpl in *.
  destruct ev as [|env|msg parent pid repo]; simpl.
  - unfold startDrain. destruct (isProcessing s) eqn:Hp; [done|].
    destruct (messageQueue s) as [|cell rest] eqn:Hq; [done|].
    unfold Inv. simpl. rewrite ?Hq. done.
  - destruct h as [cell|]; simpl; [|done].
    unfold finishDrain.
    destruct (deliver cfg env cell.2 (messageStore s)) as [[outcome ms] calls].
    unfold Inv. simpl.
    destruct (settle_ids outcome cell.1 cell.2 (messageQueue s)) as [-> | ->].
    + done.
    + split_and!; [|intros r Hr; apply Hlt|done].
      * destruct ((messageQueue s).*1); [done|]. by apply NoDup_cons in Hnd as [].
      * destruct ((messageQueue s).*1); [done|]. by right.
  - unfold Inv, queueMessage. simpl. rewrite fmap_app. simpl. split_and!.
    + apply NoDup_app. split_and!; [done| |apply NoDup_singleton].
      intros r Hr ->%list_elem_of_singleton. apply Hlt in Hr. lia.
    + intros r [Hr| ->%list_elem_of_singleton]%elem_of_app; [apply Hlt in Hr|]; lia.
    + destruct h as [cell|]; [|done]. destruct Hheld as [Hp Hh]. split; [done|].
      by destruct (messageQueue s).
Qed.

Lemma Inv_run evs sys : Inv sys → Inv (run cfg evs sys).
Proof.
  revert sys. induction evs as [|ev evs IH]; intros sys Hinv; [done|].
  apply IH. by apply Inv_step.
Qed.

(** C9.  In every state the service can reach from its construction by
    triggers, resumptions and enqueues:
    - a suspended drain holds the object at the head of the queue;
    - a trigger that fires during a drain, or on an empty queue, changes
      nothing and starts no delivery;
    - a delivery is started only by a trigger, with no drain suspended,
      and on the head of the queue;
    - when a drain resumes, the head it held is either gone or still the
      head, its counter one higher and everything behind it untouched, and
      the next trigger starts on that same object again;
    - an enqueue adds one item at the tail. *)
Theorem only_the_head_is_attempted ms evs :
  let sys := run cfg evs (initial ms) in
  match held sys with
  | Some cell =>
      isProcessing (svc sys) = true ∧ head (messageQueue (svc sys)) = Some cell
  | None => isProcessing (svc sys) = false
  end
  ∧ (isProcessing (svc sys) = true ∨ messageQueue (svc sys) = [] →
     step cfg Trigger sys = (sys, None))
  ∧ (∀ ev sys' ref, step cfg ev sys = (sys', Some ref) →
       ev = Trigger ∧ held sys = None
       ∧ ∃ m, head (messageQueue (svc sys)) = Some (ref, m)
              ∧ held sys' = Some (ref, m)
              ∧ messageQueue (svc sys') = messageQueue (svc sys))
  ∧ (∀ env ref m, held sys = Some (ref, m) →
       let sys' := (step cfg (Settled env) sys).1 in
       held sys' = None
       ∧ (messageQueue (svc sys') = tail (messageQueue (svc sys))
          ∨ messageQueue (svc sys')
              = (ref, withRetries (S (retries m)) m) :: tail (messageQueue (svc sys))
            ∧ (step cfg Trigger sys').2 = Some ref))
  ∧ (∀ message parent prId repository,
       ∃ cell,
         messageQueue (svc (step cfg (Enqueue message parent prId repository) sys).1)
         = (messageQueue (svc sys) ++ [cell])%list).
Proof.
  intros sys.
  assert (Hinv : Inv sys) by apply Inv_run, Inv_initial.
  destruct Hinv as (Hnd & Hlt & Hheld).
  destruct sys as [s h]. simpl in *. split_and!.
  - done.
  - intros Hnoop. unfold startDrain.
    destruct (isProcessing s); [done|]. destruct Hnoop as [? | ->]; done.
  - intros ev sys' ref Hstep.
    destruct ev as [|env|msg parent pid repo]; simpl in Hstep.
    + unfold startDrain in Hstep. destruct (isProcessing s) eqn:Hp; [done|].
      destruct (messageQueue s) as [|[r m] rest] eqn:Hq; [done|].
      injection Hstep as <- <-. split_and!; [done| |].
      * by destruct h as [?|]; [destruct Hheld|].
      * exists m. simpl. by rewrite ?Hq.
    + by destruct h.
    + done.
  - intros env ref m ->. destruct Hheld as [Hp Hh]. simpl.
    destruct (messageQueue s) as [|cell rest] eqn:Hq; [done|].
    injection Hh as ->. split; [done|].
    unfold finishDrain. simpl.
    destruct (deliver cfg env m (messageStore s)) as [[outcome ms'] calls]. simpl.
    apply NoDup_cons in Hnd as [Hfresh _]. rewrite Hq.
    unfold settle. destruct outcome as [|e]; [by left|].
    repeat case_bool_decide; try (by left). right.
    rewrite bump_head by done. split; [done|].
    unfold startDrain. simpl. done.
  - intros msg parent pid repo. by eexists.
Qed.

End HeadOfLine.

(** ** Poll cycle *)

Section PollCycle.
Import Bitbucket.
Context (cfg : Pachka.Config) (rd : Reader) (fs : Z → MessageStore.FsOutcome).
Implicit Types (s : Pachka.State) (acc : gset Z * Pachka.State).

Local Abbreviation storeOf s := (MessageStore.store (Pachka.messageStore s)).

Lemma sendPullRequestNotification_store pr s :
  Pachka.messageStore (Pachka.sendPullRequestNotification cfg pr s).2
  = Pachka.messageStore s.
Proof. unfold Pachka.sendPullRequestNotification. by repeat case_match. Qed.

Lemma remind_fold prs acc :
  let out := foldl (remind cfg) acc prs in
  (∀ k, k ∈ out.1 ↔ k ∈ pr_id <$> prs ∨ k ∈ acc.1)
  ∧ Pachka.messageStore out.2 = Pachka.messageStore acc.2.
Proof.
  revert acc. induction prs as [|pr prs IH]; intros acc; simpl.
  - split; [|done]. intros k. rewrite elem_of_nil. naive_solver.
  - destruct (IH (remind cfg acc pr)) as [Hin Hst]. split.
    + intros k. rewrite Hin, elem_of_cons. unfold remind.
      destruct (hasPendingReviewers pr); simpl; set_solver.
    + rewrite Hst. unfold remind. destruct (hasPendingReviewers pr); simpl; [|done].
      apply sendPullRequestNotification_store.
Qed.

(** A removal deletes at most the record it names. *)
Lemma removeFromStore_store f k repo s :
  storeOf (Pachka.removeFromStore f k repo s)
  = match storeOf s !! k with
    | Some e =>
        if bool_decide (MessageStore.repository e = repo)
        then delete k (storeOf s) else storeOf s
    | None => storeOf s
    end.
Proof.
  unfold Pachka.removeFromStore, MessageStore.removePR.
  destruct (storeOf s !! k) as [e|]; [|done].
  destruct (decide (MessageStore.repository e = repo)) as [Hr|Hr].
  - rewrite (bool_decide_eq_true_2 (_ = _)) by done.
    rewrite (bool_decide_eq_false_2 (_ ≠ _)) by (by intros ?). by destruct f.
  - rewrite (bool_decide_eq_false_2 (_ = _)) by done.
    by rewrite (bool_decide_eq_true_2 (_ ≠ _)).
Qed.

Lemma removeFromStore_subseteq f k repo s :
  storeOf (Pachka.removeFromStore f k repo s) ⊆ storeOf s.
Proof.
  rewrite removeFromStore_store. repeat case_match; try done. apply delete_subseteq.
Qed.

Lemma sweep_subseteq w repo (A : gset Z) s sp :
  storeOf (sweep rd fs w repo A s sp) ⊆ storeOf s.
Proof.
  unfold sweep. repeat case_match; try done. apply removeFromStore_subseteq.
Qed.

Lemma sweep_fold_subseteq w repo (A : gset Z) sps s :
  storeOf (foldl (sweep rd fs w repo A) s sps) ⊆ storeOf s.
Proof.
  revert s. induction sps as [|sp sps IH]; intros s; simpl; [done|].
  etrans; [apply IH|apply sweep_subseteq].
Qed.

Lemma getPRStatus_closed w repo k :
  reportedClosed rd w repo k → ∃ st, getPRStatus rd w repo k = Ok st ∧ st ≠ "OPEN".
Proof.
  unfold getPRStatus. intros [(st & -> & Hst) | ->]; [by eexists|].
  rewrite bool_decide_eq_true_2 by done. by eexists.
Qed.

Lemma sweep_hits w repo (A : gset Z) s sp (m0 : gmap Z MessageStore.Entry) e :
  MessageStore.sp_prId sp ∉ A →
  reportedClosed rd w repo (MessageStore.sp_prId sp) →
  m0 !! MessageStore.sp_prId sp = Some e →
  MessageStore.repository e = repo →
  storeOf s ⊆ m0 →
  storeOf (sweep rd fs w repo A s sp) !! MessageStore.sp_prId sp = None.
Proof.
  intros Hnot Hclosed Hm0 Hrepo Hsub. unfold sweep.
  rewrite bool_decide_eq_false_2 by done.
  destruct (getPRStatus_closed _ _ _ Hclosed) as (st & -> & Hst).
  rewrite bool_decide_eq_true_2 by done.
  rewrite removeFromStore_store.
  destruct (storeOf s !! MessageStore.sp_prId sp) as [e'|] eqn:He'; [|done].
  assert (e' = e) as ->.
  { eapply lookup_weaken in He'; [|done]. congruence. }
  rewrite bool_decide_eq_true_2 by done. apply lookup_delete_eq.
Qed.

Lemma sweep_fold_hits w repo (A : gset Z) sps s sp (m0 : gmap Z MessageStore.Entry) e :
  sp ∈ sps →
  MessageStore.sp_prId sp ∉ A →
  reportedClosed rd w repo (MessageStore.sp_prId sp) →
  m0 !! MessageStore.sp_prId sp = Some e →
  MessageStore.repository e = repo →
  storeOf s ⊆ m0 →
  storeOf (foldl (sweep rd fs w repo A) s sps) !! MessageStore.sp_prId sp = None.
Proof.
  intros Hin Hnot Hclosed Hm0 Hrepo. revert s.
  induction sps as [|sp' sps IH]; intros s Hsub; [by apply elem_of_nil in Hin|].
  simpl. apply elem_of_cons in Hin as [<-|Hin].
  - eapply lookup_weaken_None; [|apply sweep_fold_subseteq].
    by eapply sweep_hits.
  - apply IH; [done|]. etrans; [apply sweep_subseteq|done].
Qed.

Lemma checkRepository_spec stored w acc repo :
  let out := checkRepository cfg rd fs stored w acc repo in
  (∀ k, k ∈ out.1 ↔ k ∈ pr_id <$> getOpenPullRequests rd w repo ∨ k ∈ acc.1)
  ∧ storeOf out.2 ⊆ storeOf acc.2.
Proof.
  unfold checkRepository. simpl.
  destruct (remind_fold (getOpenPullRequests rd w repo) acc) as [Hin Hst].
  split; [done|]. etrans; [apply sweep_fold_subseteq|]. by rewrite Hst.
Qed.

Lemma checkPullRequests_polled workspaces s :
  checkPullRequests cfg rd fs workspaces true s
  = (foldl (cycleStep cfg rd fs (Pachka.getAllStoredPRs s)) (∅, s) (polled workspaces)).2.
Proof.
  unfold checkPullRequests, polled. simpl. f_equal.
  generalize (∅ : gset Z, s) as acc. generalize (Pachka.getAllStoredPRs s) as stored.
  intros stored. induction workspaces as [|w ws IH]; intros acc; [done|].
  simpl. rewrite foldl_app, foldl_fmap. simpl. apply IH.
Qed.

Lemma seenOpen_cons wr repos :
  seenOpen rd (wr :: repos)
  = ((pr_id <$> getOpenPullRequests rd wr.1 wr.2) ++ seenOpen rd repos)%list.
Proof. done. Qed.

Lemma seenOpen_app repos1 repos2 :
  seenOpen rd (repos1 ++ repos2) = (seenOpen rd repos1 ++ seenOpen rd repos2)%list.
Proof. apply bind_app. Qed.

Lemma cycle_fold_spec stored repos acc :
  let out := foldl (cycleStep cfg rd fs stored) acc repos in
  (∀ k, k ∈ out.1 ↔ k ∈ seenOpen rd repos ∨ k ∈ acc.1)
  ∧ storeOf out.2 ⊆ storeOf acc.2.
Proof.
  revert acc. induction repos as [|wr repos IH]; intros acc; cbn [foldl].
  - split; [|done]. intros k. change (seenOpen rd []) with (@nil Z).
    rewrite elem_of_nil. naive_solver.
  - destruct (IH (cycleStep cfg rd fs stored acc wr)) as [Hin Hsub].
    destruct (checkRepository_spec stored wr.1 acc wr.2) as [Hin1 Hsub1].
    split.
    + intros k. rewrite Hin. unfold cycleStep. rewrite Hin1.
      rewrite seenOpen_cons, elem_of_app. naive_solver.
    + etrans; [apply Hsub|apply Hsub1].
Qed.

Lemma stored_in_getAllPRs s k e :
  storeOf s !! k = Some e →
  MessageStore.mkStoredPR k (MessageStore.repository e) (MessageStore.messageId e)
  ∈ Pachka.getAllStoredPRs s.
Proof.
  intros Hk. unfold Pachka.getAllStoredPRs, MessageStore.getAllPRs.
  apply list_elem_of_fmap. exists (k, e). split; [done|].
  by apply elem_of_map_to_list.
Qed.

(** The sweep, when it does reach a record.  The cycle polls the
    configured repositories in order and collects the ids it sees open in
    one set for the whole cycle.  A pull request whose record names a
    polled repository exactly as the configuration does, whose id is in
    none of the open-lists fetched up to and including that repository's,
    and whose status request there reports a state other than OPEN (a 404
    counting as closed), has no record in the store when the cycle ends;
    removing it once more returns without throwing and changes nothing. *)
Theorem closed_pull_request_is_purged workspaces s before w repo after prId e :
  polled workspaces = (before ++ (w, repo) :: after)%list →
  storeOf s !! prId = Some e →
  MessageStore.repository e = repo →
  prId ∉ seenOpen rd (before ++ [(w, repo)]) →
  reportedClosed rd w repo prId →
  let s' := checkPullRequests cfg rd fs workspaces true s in
  storeOf s' !! prId = None
  ∧ MessageStore.getMessageId prId (Pachka.messageStore s') = None
  ∧ ∀ fs', MessageStore.removePR fs' prId repo (Pachka.messageStore s')
           = (Ok tt, Pachka.messageStore s').
Proof.
  intros Hpolled He Hrepo Hunseen Hclosed s'.
  assert (Hgone : storeOf s' !! prId = None).
  { unfold s'. rewrite checkPullRequests_polled, Hpolled.
    rewrite foldl_app. cbn [foldl].
    set (stored := Pachka.getAllStoredPRs s).
    set (acc1 := foldl (cycleStep cfg rd fs stored) (∅, s) before).
    destruct (cycle_fold_spec stored before (∅, s)) as [Hin1 Hsub1].
    fold acc1 in Hin1, Hsub1. simpl in Hsub1.
    set (acc2 := cycleStep cfg rd fs stored acc1 (w, repo)).
    destruct (cycle_fold_spec stored after acc2) as [_ Hsub3].
    eapply lookup_weaken_None; [|apply Hsub3].
    unfold acc2, cycleStep, checkRepository. cbn [fst snd].
    destruct (remind_fold (getOpenPullRequests rd w repo) acc1) as [Hin2 Hst2].
    set (acc1' := foldl (remind cfg) acc1 (getOpenPullRequests rd w repo)) in *.
    cbv zeta in Hin2, Hst2.
    set (sp := MessageStore.mkStoredPR prId (MessageStore.repository e)
                 (MessageStore.messageId e)).
    change prId with (MessageStore.sp_prId sp).
    eapply (sweep_fold_hits w repo acc1'.1 _ acc1'.2 sp (storeOf s) e).
    - apply list_elem_of_In, filter_In. split.
      + apply list_elem_of_In. by apply stored_in_getAllPRs.
      + simpl. by apply bool_decide_eq_true_2.
    - simpl. rewrite Hin2, Hin1. intros [Hk|[Hk|Hk]].
      + apply Hunseen. rewrite seenOpen_app. apply elem_of_app. right.
        rewrite seenOpen_cons. apply elem_of_app. by left.
      + apply Hunseen. rewrite seenOpen_app. apply elem_of_app. by left.
      + by apply not_elem_of_empty in Hk.
    - done.
    - done.
    - done.
    - rewrite Hst2. done. }
  split_and!.
  - done.
  - unfold MessageStore.getMessageId. by rewrite Hgone.
  - intros fs'. unfold MessageStore.removePR. by rewrite Hgone.
Qed.

(** The periodic cycle passes over a snapshot that every reviewer has
    approved: it records the id as seen and hands nothing to the chat
    service. *)
Lemma remind_skips_all_approved acc pr :
  ApprovedByAll pr → remind cfg acc pr = ({[pr_id pr]} ∪ acc.1, acc.2).
Proof.
  intros Hall. pose proof (ApprovedByAll_no_pending pr Hall) as Hnone.
  unfold Pachka.hasPendingReviewers in Hnone.
  unfold remind, hasPendingReviewers. by rewrite Hnone.
Qed.

(** The chat service itself, as the start-up pass calls it, queues exactly
    one reply for such a snapshot: the all-approved text, addressed to the
    stored thread. *)
Lemma notification_all_approved pr s threadId :
  MessageStore.getMessageId (pr_id pr) (Pachka.messageStore s) = Some threadId →
  pr_reviewers pr ≠ [] →
  pr_state pr = OPEN →
  ApprovedByAll pr →
  Pachka.sendPullRequestNotification cfg pr s
  = (true,
     Pachka.queueMessage (Pachka.allApprovedText cfg pr) (Some threadId)
       (Some (pr_id pr)) (Some (pr_source_repository pr)) s).
Proof.
  intros Hthread Hne Hopen Hall. unfold Pachka.sendPullRequestNotification.
  rewrite Hthread.
  rewrite (update_all_approved cfg pr Hne Hopen Hall).
  unfold JS.truthy_string.
  by rewrite bool_decide_eq_true_2 by apply allApprovedText_nonempty.
Qed.

End PollCycle.

(** ** The scenarios, evaluated *)

Section Scenarios.
Import Sample.

Lemma forallb_ApprovedByAll pr :
  forallb (λ reviewer, approvedOf (participantInfo pr reviewer)) (pr_reviewers pr) = true →
  ApprovedByAll pr.
Proof.
  intros Hfa reviewer Hr%list_elem_of_In.
  rewrite forallb_forall in Hfa. specialize (Hfa reviewer Hr).
  unfold approvedOf in Hfa. destruct (participantInfo pr reviewer) as [p|]; [|done].
  by exists p.
Qed.


(** Outside the data model's invariant the lookup decides: of two records
    for one reviewer the first counts. *)
Example first_record_counts :
  ¬ OneRecordPerIdentity duplicated
  ∧ Pachka.formatPullRequestUpdateMessage cfg duplicated
    = Some (Pachka.reminderText duplicated ["Alice"]).
Proof.
  split; [|reflexivity].
  intros Hnd. apply NoDup_cons in Hnd as [Hnot _]. apply Hnot. by left.
Qed.

Lemma reminder_lists_pending_reviewers_witness :
  (∃ reviewer, reviewer ∈ pr_reviewers waiting ∧ Pending waiting reviewer)
  ∧ Pachka.formatPullRequestUpdateMessage cfg waiting
    = Some (JS.join JS.nl
              [ "🔄 Напоминание о ревью";
                "PR: Fix login";
                "";
                "Ожидается ревью от:";
                "• Bob - @bob";
                "";
                "🔗 https://example.org/pr" ]).
Proof.
  assert (H : ∃ reviewer, reviewer ∈ pr_reviewers waiting ∧ Pending waiting reviewer).
  { exists bob. split; [by right; left|]. apply awaitsReview_Pending. reflexivity. }
  split; [done|].
  apply (reminder_lists_pending_reviewers cfg waiting H).
Defined.

Lemma no_reviewers_no_update_witness :
  pr_reviewers unreviewed = []
  ∧ Pachka.formatPullRequestUpdateMessage cfg unreviewed = None
  ∧ Pachka.sendPullRequestNotification cfg unreviewed (service threaded)
    = (true, service threaded).
Proof.
  assert (H : pr_reviewers unreviewed = []) by reflexivity.
  split_and!; [done| |].
  - apply (no_reviewers_no_update cfg unreviewed H).
  - apply (no_reviewers_no_update cfg unreviewed H) with (threadId := "thread-1").
    reflexivity.
Defined.

Lemma put_twice_same_lookup_witness :
  let first := MessageStore.saveMessageId MessageStore.FsOk "t1" 7 (Some "thread-7") "app" noStore in
  let second := MessageStore.saveMessageId MessageStore.FsOk "t2" 7 (Some "thread-7") "app" first.2 in
  (7 ≠ 0 ∧ "thread-7" ≠ "" ∧ "app" ≠ "")
  ∧ MessageStore.getMessageId 7 second.2 = MessageStore.getMessageId 7 first.2
  ∧ first.1 = Ok tt ∧ second.1 = Ok tt.
Proof.
  assert (H1 : 7 ≠ 0) by done.
  assert (H2 : "thread-7" ≠ "") by done.
  assert (H3 : "app" ≠ "") by done.
  pose proof (put_twice_same_lookup MessageStore.FsOk MessageStore.FsOk "t1" "t2"
                7 "thread-7" "app" noStore H1 H2 H3) as (Hsame & _ & Hok1 & Hok2 & _).
  split_and!; [done|done|done|exact Hsame|by apply Hok1|by apply Hok2].
Defined.

(** Scenario 4 with its counts as written: after three drain attempts
    answered with 429 the first message is still the head of the queue,
    its counter at 3, and the second still waits behind it. *)
Lemma third_rate_limit_keeps_head :
  let s1 := (Pachka.processMessageQueue cfg busy queued).1 in
  let s2 := (Pachka.processMessageQueue cfg busy s1).1 in
  let s3 := (Pachka.processMessageQueue cfg busy s2).1 in
  Pachka.retries first = 0%nat
  ∧ rateLimited busy first = true
  ∧ Pachka.messageQueue s3 = [(0%nat, withRetries 3 first); (1%nat, second)]
  ∧ Pachka.messageQueue s3 ≠ [(1%nat, second)].
Proof. by vm_compute. Qed.

Lemma rate_limited_head_dropped_by_fourth_attempt_witness :
  let s1 := (Pachka.processMessageQueue cfg busy queued).1 in
  let s2 := (Pachka.processMessageQueue cfg busy s1).1 in
  let s3 := (Pachka.processMessageQueue cfg busy s2).1 in
  let s4 := (Pachka.processMessageQueue cfg busy s3).1 in
  (Pachka.isProcessing queued = false
   ∧ Pachka.messageQueue queued = [(0%nat, first); (1%nat, second)]
   ∧ (0%nat ∉ [(1%nat, second)].*1)
   ∧ Pachka.retries first = 0%nat
   ∧ rateLimited busy first = true)
  ∧ Pachka.messageQueue s3 = [(0%nat, withRetries 3 first); (1%nat, second)]
  ∧ Pachka.messageQueue s4 = [(1%nat, second)].
Proof.
  assert (H1 : Pachka.isProcessing queued = false) by reflexivity.
  assert (H2 : Pachka.messageQueue queued = [(0%nat, first); (1%nat, second)])
    by reflexivity.
  assert (H3 : 0%nat ∉ [(1%nat, second)].*1).
  { intros [H|H]%elem_of_cons; [discriminate H|by apply elem_of_nil in H]. }
  assert (H4 : Pachka.retries first = 0%nat) by reflexivity.
  assert (H5 : rateLimited busy first = true) by reflexivity.
  pose proof (rate_limited_head_dropped_by_fourth_attempt cfg busy busy busy busy busy
                queued 0%nat first [(1%nat, second)] H1 H2 H3 H4 H5 H5 H5 H5)
    as (_ & _ & Hthird & Hfourth & _).
  split_and!; [done|done|done|done|done|exact Hthird|exact Hfourth].
Defined.

Lemma root_post_without_id_is_dropped_witness :
  let out := Pachka.processMessageQueue cfg blank queued in
  (Pachka.isProcessing queued = false
   ∧ Pachka.messageQueue queued = [(0%nat, first); (1%nat, second)]
   ∧ JS.truthy_opt_string (Pachka.parentMessageId first) = false
   ∧ ∃ id, Pachka.on_message blank = Pachka.Reply id ∧ Pachka.truthy_id id = false)
  ∧ out.2 = [Pachka.PostMessage "first" "discussion" "chat-1"]
  ∧ Pachka.messageQueue out.1 = [(1%nat, second)]
  ∧ Pachka.messageStore out.1 = noStore.
Proof.
  assert (H1 : Pachka.isProcessing queued = false) by reflexivity.
  assert (H2 : Pachka.messageQueue queued = [(0%nat, first); (1%nat, second)])
    by reflexivity.
  assert (H3 : JS.truthy_opt_string (Pachka.parentMessageId first) = false)
    by reflexivity.
  assert (H4 : ∃ id, Pachka.on_message blank = Pachka.Reply id
                     ∧ Pachka.truthy_id id = false)
    by (exists Pachka.IdMissing; split; reflexivity).
  pose proof (root_post_without_id_is_dropped cfg blank queued 0%nat first
                [(1%nat, second)] H1 H2 H3 H4) as (Hcalls & Hq & _ & Hst & _).
  split_and!; [done|done|done|done|exact Hcalls|exact Hq|exact Hst].
Defined.

(** Scenario 3 with a second repository in the cycle: pull request 5 is
    stored under "lib", is not in the open-list of "lib" and is reported
    MERGED there, yet its record survives the cycle, because pull request
    5 of "app", polled before, is open. *)
Lemma same_id_open_elsewhere_keeps_record :
  let s' := Bitbucket.checkPullRequests cfg readerMerged disk twoRepos true
              (service tracked) in
  ("team", "lib") ∈ polled twoRepos
  ∧ MessageStore.repository <$> MessageStore.store tracked !! 5 = Some "lib"
  ∧ (5 ∉ pr_id <$> Bitbucket.getOpenPullRequests readerMerged "team" "lib")
  ∧ Bitbucket.getPRStatus readerMerged "team" "lib" 5 = Ok "MERGED"
  ∧ MessageStore.getMessageId 5 (Pachka.messageStore s') = Some "thread-5".
Proof.
  split_and!.
  - by right; left.
  - reflexivity.
  - by intros ?%elem_of_nil.
  - reflexivity.
  - by vm_compute.
Qed.

Lemma closed_pull_request_is_purged_witness :
  let s' := Bitbucket.checkPullRequests cfg readerQuiet disk twoRepos true
              (service tracked) in
  (polled twoRepos = [("team", "app")] ++ ("team", "lib") :: []
   ∧ (5 ∉ seenOpen readerQuiet ([("team", "app")] ++ [("team", "lib")]))
   ∧ reportedClosed readerQuiet "team" "lib" 5)%list
  ∧ MessageStore.store (Pachka.messageStore s') !! 5 = None.
Proof.
  assert (H1 : polled twoRepos = ([("team", "app")] ++ ("team", "lib") :: [])%list)
    by reflexivity.
  assert (H2 : MessageStore.store (Pachka.messageStore (service tracked)) !! 5
               = Some (MessageStore.mkEntry "thread-5" "lib" "2024-01-01T00:00:00.000Z"))
    by reflexivity.
  assert (H3 : MessageStore.repository
                 (MessageStore.mkEntry "thread-5" "lib" "2024-01-01T00:00:00.000Z")
               = "lib") by reflexivity.
  assert (H4 : 5 ∉ seenOpen readerQuiet ([("team", "app")] ++ [("team", "lib")])%list)
    by (by intros ?%elem_of_nil).
  assert (H5 : reportedClosed readerQuiet "team" "lib" 5)
    by (left; exists "MERGED"; split; [reflexivity|done]).
  split; [done|].
  apply (closed_pull_request_is_purged cfg readerQuiet disk twoRepos (service tracked)
           [("team", "app")] "team" "lib" [] 5 _ H1 H2 H3 H4 H5).
Defined.

(** C1, at scenario 2.  The thread of pull request 1 is recorded and the
    poll shows both reviewers approved.  The periodic cycle leaves the
    service as it was, with nothing queued, whereas the start-up pass over
    the same reply of the review system queues the one all-approved reply
    to the stored thread. *)
Theorem periodic_cycle_skips_all_approved :
  pr_reviewers approved ≠ []
  ∧ pr_state approved = OPEN
  ∧ forallb (λ reviewer, approvedOf (participantInfo approved reviewer))
      (pr_reviewers approved) = true
  ∧ MessageStore.getMessageId (pr_id approved) threaded = Some "thread-1"
  ∧ Bitbucket.getOpenPullRequests readerApproved "team" "app" = [approved]
  ∧ Bitbucket.checkPullRequests cfg readerApproved disk oneRepo true (service threaded)
    = service threaded
  ∧ Pachka.messageQueue
      (Bitbucket.processAllRepositories cfg readerApproved oneRepo (service threaded))
    = [(0%nat,
        Pachka.mkQueuedMessage (Pachka.allApprovedText cfg approved)
          (Some "thread-1") (Some 1) (Some "team/app") 0)].
Proof. split_and!; by vm_compute. Qed.

(** C2, at a record the bot wrote itself.  The start-up pass announces
    pull request 1 of workspace "team", repository "app"; the root post is
    delivered, and the worker records the thread under the snapshot's
    [source.repository.full_name], "team/app".  In a later cycle the pull
    request is no longer in the open-list of "team"/"app" and its status
    request answers MERGED; the sweep, which looks for records whose
    repository is the configured name "app", passes over the record, and
    the thread is still looked up after the cycle. *)
Theorem record_written_by_the_bot_is_never_purged :
  let announced := Bitbucket.processAllRepositories cfg readerWaiting oneRepo
                     (service noStore) in
  let delivered := (Pachka.processMessageQueue cfg accepted announced).1 in
  let swept := Bitbucket.checkPullRequests cfg readerQuiet disk oneRepo true delivered in
  polled oneRepo = [("team", "app")]
  ∧ pr_source_repository waiting = "team/app"
  ∧ MessageStore.store (Pachka.messageStore delivered) !! 1
    = Some (MessageStore.mkEntry "42" "team/app" "2024-01-02T00:00:00.000Z")
  ∧ Bitbucket.getOpenPullRequests readerQuiet "team" "app" = []
  ∧ Bitbucket.getPRStatus readerQuiet "team" "app" 1 = Ok "MERGED"
  ∧ MessageStore.getMessageId 1 (Pachka.messageStore swept) = Some "42".
Proof. split_and!; by vm_compute. Qed.

(** C5, at a reviewer named like an inherited property.  The only
    reviewer is called "constructor", is pending and has no entry in the
    mapping; a thread is recorded.  The reminder that is rendered, and
    queued as a reply to that thread, lists the reviewer as the name
    followed by the text of [Object.prototype.constructor], not as the
    name alone. *)
Theorem inherited_property_name_gets_a_mention :
  let rendered :=
    JS.join JS.nl
      [ "🔄 Напоминание о ревью";
        "PR: Fix login";
        "";
        "Ожидается ревью от:";
        "• constructor - function Object() { [native code] }";
        "";
        "🔗 https://example.org/pr" ] in
  Pachka.reviewerMappings cfg !! "constructor" = None
  ∧ pr_reviewers namedLikeAProperty = [constructorUser]
  ∧ participantInfo namedLikeAProperty constructorUser = None
  ∧ Pachka.allReviewersApproved namedLikeAProperty = false
  ∧ MessageStore.getMessageId (pr_id namedLikeAProperty) threaded = Some "thread-1"
  ∧ Pachka.formatPullRequestUpdateMessage cfg namedLikeAProperty = Some rendered
  ∧ Pachka.messageQueue
      (Pachka.sendPullRequestNotification cfg namedLikeAProperty (service threaded)).2
    = [(0%nat,
        Pachka.mkQueuedMessage rendered (Some "thread-1") (Some 1) (Some "team/app") 0)].
Proof. split_and!; by vm_compute. Qed.

End Scenarios.

(** * Further properties *)

(** ** Thread store: validation, persistence, restart *)

Section StoreFacts.
Import MessageStore Sample.
Implicit Types (s : State) (fs : FsOutcome).

Lemma saveMessageId_rejects_invalid_aux fs now prId messageId r s :
  JS.truthy_opt_string messageId = false ∨ prId = 0 ∨ r = "" →
  saveMessageId fs now prId messageId r s
  = (Throw (Error "Invalid message data for storage"), s).
Proof.
  intros Hbad. unfold saveMessageId.
  assert (negb (JS.truthy_opt_string messageId) || negb (JS.truthy_number prId)
          || negb (JS.truthy_string r) = true) as ->; [|done].
  destruct Hbad as [-> | [-> | ->]]; [done| |].
  - by rewrite orb_true_r.
  - by rewrite orb_true_r.
Qed.

(** X1.  [put] with an absent or empty thread id, a zero id or an empty
    repository throws the validation error before anything is written:
    memory and file are as they were. *)
Theorem saveMessageId_rejects_invalid fs now prId messageId r s :
  JS.truthy_opt_string messageId = false ∨ prId = 0 ∨ r = "" →
  saveMessageId fs now prId messageId r s
  = (Throw (Error "Invalid message data for storage"), s).
Proof. apply saveMessageId_rejects_invalid_aux. Qed.

Lemma saveMessageId_rejects_invalid_witness :
  JS.truthy_opt_string (Some "") = false
  ∧ saveMessageId FsOk "t" 7 (Some "") "app" threaded
    = (Throw (Error "Invalid message data for storage"), threaded).
Proof.
  split; [reflexivity|].
  apply (saveMessageId_rejects_invalid FsOk "t" 7 (Some "") "app" threaded).
  left. reflexivity.
Defined.

(** X2.  A well-formed [put] replaces whatever record the id had by the
    new one, whatever the disk does, and leaves the record and the lookup
    of every other id as they were. *)
Theorem saveMessageId_overwrites_only_its_id fs now prId t r s :
  prId ≠ 0 → t ≠ "" → r ≠ "" →
  let s' := (saveMessageId fs now prId (Some t) r s).2 in
  store s' !! prId = Some (mkEntry t r now)
  ∧ ∀ k, k ≠ prId → store s' !! k = store s !! k ∧ getMessageId k s' = getMessageId k s.
Proof.
  intros Hid Ht Hr s'.
  destruct (saveMessageId_valid fs now prId t r s Hid Ht Hr) as (Hst & _).
  fold s' in Hst. split.
  - by rewrite Hst, lookup_insert_eq.
  - intros k Hk. unfold getMessageId. by rewrite Hst, lookup_insert_ne.
Qed.

Lemma saveMessageId_overwrites_only_its_id_witness :
  (1 ≠ 0 ∧ "thread-2" ≠ "" ∧ "lib" ≠ "")
  ∧ getMessageId 1 threaded = Some "thread-1"
  ∧ store (saveMessageId FsReadFails "t" 1 (Some "thread-2") "lib" threaded).2 !! 1
    = Some (mkEntry "thread-2" "lib" "t").
Proof.
  assert (H1 : 1 ≠ 0) by done.
  assert (H2 : "thread-2" ≠ "") by done.
  assert (H3 : "lib" ≠ "") by done.
  split_and!; [done|done|done|reflexivity|].
  apply (saveMessageId_overwrites_only_its_id FsReadFails "t" 1 "thread-2" "lib"
           threaded H1 H2 H3).
Defined.

Lemma saveMessageId_ok_persisted fs now prId messageId r s s' :
  saveMessageId fs now prId messageId r s = (Ok tt, s') → file s' = store s'.
Proof.
  unfold saveMessageId. case_match; [done|].
  destruct fs; simpl; try done. case_match; [done|]. by intros [= <-].
Qed.

Lemma removePR_ok_persisted fs prId r s s' :
  removePR fs prId r s = (Ok tt, s') → s' = s ∨ file s' = store s'.
Proof.
  unfold removePR. destruct (store s !! prId) as [e|]; [|intros [= <-]; by left].
  case_match; [intros [= <-]; by left|].
  destruct fs; simpl; try done. intros [= _ <-]. by right.
Qed.

(** X3.  Whenever [put] returns normally the file holds exactly the
    in-memory store; whenever [remove] returns normally it either changed
    nothing or left the file equal to the in-memory store. *)
Theorem normal_return_means_persisted fs now prId messageId r s s' :
  (saveMessageId fs now prId messageId r s = (Ok tt, s') → file s' = store s')
  ∧ (removePR fs prId r s = (Ok tt, s') → s' = s ∨ file s' = store s').
Proof.
  split; [apply saveMessageId_ok_persisted|apply removePR_ok_persisted].
Qed.

(** X4.  A mutation whose file write fails is not rolled back: [put] has
    already installed the record and [remove] has already deleted it in
    memory, while the file keeps the old content, and the call throws. *)
Theorem failed_write_is_not_rolled_back now prId t r s :
  prId ≠ 0 → t ≠ "" → r ≠ "" →
  saveMessageId FsWriteFails now prId (Some t) r s
  = (Throw FsError, mkState (<[prId := mkEntry t r now]> (store s)) (file s))
  ∧ removePR FsWriteFails prId r
      (mkState (<[prId := mkEntry t r now]> (store s)) (file s))
    = (Throw FsError, mkState (delete prId (store s)) (file s)).
Proof.
  intros Hid Ht Hr. split.
  - unfold saveMessageId. simpl. unfold JS.truthy_string, JS.truthy_number.
    by rewrite !bool_decide_eq_true_2.
  - unfold removePR. simpl. rewrite lookup_insert_eq. simpl.
    rewrite bool_decide_eq_false_2 by (by intros ?). simpl.
    by rewrite delete_insert_eq.
Qed.

Lemma failed_write_is_not_rolled_back_witness :
  (7 ≠ 0 ∧ "thread-7" ≠ "" ∧ "app" ≠ "")
  ∧ getMessageId 7 (saveMessageId FsWriteFails "t" 7 (Some "thread-7") "app" noStore).2
    = Some "thread-7"
  ∧ file (saveMessageId FsWriteFails "t" 7 (Some "thread-7") "app" noStore).2 = ∅.
Proof.
  assert (H1 : 7 ≠ 0) by done.
  assert (H2 : "thread-7" ≠ "") by done.
  assert (H3 : "app" ≠ "") by done.
  destruct (failed_write_is_not_rolled_back "t" 7 "thread-7" "app" noStore H1 H2 H3)
    as [Hput _].
  rewrite Hput. split_and!; done.
Defined.

(** X5.  Restart round trip: after a [put] that returned normally, a
    service constructed anew and initialised from the file finds the same
    store, so the thread id is looked up again; after a [remove] that
    deleted the record, the restarted service has no record for the id. *)
Theorem restart_restores_the_store fs now prId messageId r s s' fs' :
  let restarted (from : State) := (initializeStore true Present fs' (created (file from))).2 in
  (saveMessageId fs now prId messageId r s = (Ok tt, s') →
     store (restarted s') = store s'
     ∧ ∃ t, messageId = Some t ∧ getMessageId prId (restarted s') = Some t)
  ∧ (removePR fs prId r s = (Ok tt, s') → s' ≠ s →
     store (restarted s') = store s' ∧ getMessageId prId (restarted s') = None).
Proof.
  intros restarted. split.
  - intros Hput.
    pose proof (saveMessageId_ok_persisted _ _ _ _ _ _ _ Hput) as Hp.
    unfold restarted. simpl. split; [done|].
    unfold saveMessageId in Hput. case_match eqn:Hvalid; [done|].
    apply orb_false_iff in Hvalid as [[Hm Hi]%orb_false_iff Hr].
    apply negb_false_iff in Hm, Hi, Hr.
    destruct messageId as [t|]; [|done]. exists t. split; [done|].
    destruct fs; simpl in Hput; try done.
    case_match; [done|]. injection Hput as <-.
    unfold getMessageId. simpl. rewrite lookup_insert_eq. simpl.
    simpl in Hm. by rewrite Hm.
  - intros Hrem Hchanged.
    destruct (removePR_ok_persisted _ _ _ _ _ Hrem) as [->|Hfile]; [done|].
    unfold restarted. simpl. split; [done|].
    unfold removePR in Hrem. destruct (store s !! prId) as [e|]; [|by injection Hrem as <-].
    case_match; [by injection Hrem as <-|].
    destruct fs; simpl in Hrem; try done. injection Hrem as _ <-.
    unfold getMessageId. simpl. by rewrite lookup_delete_eq.
Qed.

Lemma restart_restores_the_store_witness :
  let saved := (saveMessageId FsOk "t" 7 (Some "thread-7") "app" noStore).2 in
  saveMessageId FsOk "t" 7 (Some "thread-7") "app" noStore = (Ok tt, saved)
  ∧ getMessageId 7 (initializeStore true Present FsOk (created (file saved))).2
    = Some "thread-7".
Proof.
  intros saved.
  assert (H : saveMessageId FsOk "t" 7 (Some "thread-7") "app" noStore = (Ok tt, saved))
    by reflexivity.
  split; [done|].
  destruct (restart_restores_the_store FsOk "t" 7 (Some "thread-7") "app" noStore
              saved FsOk) as [Hput _].
  destruct (Hput H) as (_ & t & [= <-] & Hget). exact Hget.
Defined.

(** X6.  Initialisation of a service constructed anew: a missing file is
    created from the empty store and the call returns; a directory that
    cannot be made, or any other failure of reading or parsing, is thrown
    on and leaves the service as constructed. *)
Theorem initializeStore_missing_or_fatal disk fs error content :
  initializeStore true Missing FsOk (created content) = (Ok tt, mkState ∅ ∅)
  ∧ getAllPRs (initializeStore true Missing FsOk (created content)).2 = []
  ∧ initializeStore false disk fs (created content) = (Throw FsError, created content)
  ∧ initializeStore true (Unreadable error) fs (created content)
    = (Throw error, created content).
Proof.
  split_and!; done.
Qed.

(** X7.  [listAll] returns exactly the records of the store, each id
    once: an entry is listed iff the store maps its id to a record with
    that repository and thread id, and the list is as long as the store is
    large. *)
Theorem getAllPRs_lists_the_store s :
  (∀ sp, sp ∈ getAllPRs s ↔
         ∃ e, store s !! sp_prId sp = Some e
              ∧ sp_repository sp = repository e ∧ sp_messageId sp = messageId e)
  ∧ NoDup (sp_prId <$> getAllPRs s)
  ∧ length (getAllPRs s) = size (store s).
Proof.
  unfold getAllPRs. split_and!.
  - intros sp. rewrite list_elem_of_fmap. split.
    + intros ([k e] & -> & Hin). apply elem_of_map_to_list in Hin. by exists e.
    + intros (e & He & Hr & Hm). exists (sp_prId sp, e). split.
      * destruct sp. simpl in *. by subst.
      * by apply elem_of_map_to_list.
  - rewrite <- list_fmap_compose.
    assert (Hfst : (sp_prId ∘ (λ kv : Z * Entry,
                      mkStoredPR kv.1 (repository kv.2) (messageId kv.2)))
                   <$> map_to_list (store s) = (map_to_list (store s)).*1)
      by (by apply list_fmap_ext).
    rewrite Hfst. apply NoDup_fst_map_to_list.
  - by rewrite length_fmap, length_map_to_list.
Qed.

(** X8.  [remove] touches no other id, and is idempotent: a second call
    with the same arguments returns normally and changes nothing, whatever
    the first call did and whatever the disk does. *)
Theorem removePR_idempotent_and_local fs1 fs2 prId r s :
  let s1 := (removePR fs1 prId r s).2 in
  removePR fs2 prId r s1 = (Ok tt, s1)
  ∧ ∀ k, k ≠ prId → store s1 !! k = store s !! k.
Proof.
  intros s1. unfold s1, removePR.
  destruct (store s !! prId) as [e|] eqn:He.
  - case_bool_decide as Hr.
    + simpl. rewrite He. by rewrite bool_decide_eq_true_2.
    + destruct fs1; simpl; rewrite lookup_delete_eq;
        (split; [done|]); intros k Hk; by rewrite lookup_delete_ne.
  - simpl. by rewrite He.
Qed.

(** X9.  [put] and [remove] keep the store well formed (non-zero ids,
    non-empty thread ids and repositories), whatever their arguments and
    whatever the disk does; in a well-formed store the lookup is absent
    exactly when the id has no record. *)
Theorem store_stays_well_formed fs now prId messageId r s :
  WellFormed (store s) →
  WellFormed (store (saveMessageId fs now prId messageId r s).2)
  ∧ WellFormed (store (removePR fs prId r s).2)
  ∧ ∀ k, getMessageId k s = MessageStore.messageId <$> store s !! k.
Proof.
  intros Hwf. split_and!.
  - unfold saveMessageId. case_match eqn:Hvalid; [done|].
    apply orb_false_iff in Hvalid as [[Hm Hi]%orb_false_iff Hr].
    apply negb_false_iff in Hm, Hi, Hr.
    apply bool_decide_eq_true in Hi, Hr.
    destruct messageId as [t|]; [|discriminate Hm]. apply bool_decide_eq_true in Hm.
    assert (Hins : WellFormed (<[prId := mkEntry t r now]> (store s))).
    { intros k e. rewrite lookup_insert. case_decide as Hk.
      - intros [= <-]. by subst.
      - apply Hwf. }
    destruct fs; simpl; try case_match; simpl; exact Hins.
  - unfold removePR. destruct (store s !! prId) as [e|]; [|done].
    case_match; [done|].
    assert (Hdel : WellFormed (delete prId (store s))).
    { intros k e' [_ Hk]%lookup_delete_Some. by apply Hwf. }
    by destruct fs.
  - intros k. unfold getMessageId. destruct (store s !! k) as [e|] eqn:He; [|done].
    destruct (Hwf k e He) as (_ & Hm & _). simpl.
    unfold JS.truthy_string. by rewrite bool_decide_eq_true_2.
Qed.

Lemma store_stays_well_formed_witness :
  WellFormed (store threaded)
  ∧ WellFormed (store (saveMessageId FsOk "t" 7 (Some "thread-7") "app" threaded).2).
Proof.
  assert (H : WellFormed (store threaded)).
  { intros k e. simpl. rewrite lookup_singleton. case_decide; [|done].
    intros [= <-]. by subst. }
  split; [done|].
  apply (store_stays_well_formed FsOk "t" 7 (Some "thread-7") "app" threaded H).
Defined.

End StoreFacts.

(** ** Delivery worker: what one attempt sends, writes and removes *)

Section DeliveryFacts.
Import Pachka Sample.
Context (cfg : Config).
Implicit Types (s : State) (m : QueuedMessage) (env : Attempt)
  (ms : MessageStore.State) (rest : list (nat * QueuedMessage)).

Lemma processMessageQueue_head env s ref m rest :
  isProcessing s = false →
  messageQueue s = (ref, m) :: rest →
  processMessageQueue cfg env s
  = (mkState (settle (deliver cfg env m (messageStore s)).1.1 ref m ((ref, m) :: rest))
       false (allocated s) (deliver cfg env m (messageStore s)).1.2,
     (deliver cfg env m (messageStore s)).2).
Proof.
  intros Hidle Hq. unfold processMessageQueue. rewrite Hidle, Hq.
  by destruct (deliver cfg env m (messageStore s)) as [[outcome ms] calls].
Qed.

Lemma saveMessageId_frame fs now id mid r ms k :
  k ≠ id →
  MessageStore.store (MessageStore.saveMessageId fs now id mid r ms).2 !! k
  = MessageStore.store ms !! k.
Proof.
  intros Hk. unfold MessageStore.saveMessageId. case_match; [done|].
  destruct fs; simpl; try case_match; simpl; by rewrite lookup_insert_ne.
Qed.

(** The store throws its own errors, which carry no response. *)
Lemma saveMessageId_throws_no_status fs now id mid r ms e :
  (MessageStore.saveMessageId fs now id mid r ms).1 = Throw e →
  responseStatus e = None.
Proof.
  unfold MessageStore.saveMessageId. case_match; [by intros [= <-]|].
  destruct fs; simpl; try (by intros [= <-]).
  case_match; [by intros [= <-]|done].
Qed.

(** Without a 429 the attempt returns, or throws something the worker does
    not retry. *)
Lemma deliver_no429 env m ms :
  no429 env →
  match (deliver cfg env m ms).1.1 with
  | Ok _ => True
  | Throw error => responseStatus error ≠ Some 429
  end.
Proof.
  intros [Hpost Hthread]. unfold deliver.
  destruct (JS.truthy_opt_string (parentMessageId m)).
  { destruct (on_message env) as [mid|st]; simpl; [done|congruence]. }
  destruct (on_message env) as [mid|st]; simpl; [|congruence].
  destruct (truthy_id mid); [|done].
  destruct (on_thread env) as [tid|st]; simpl; [|congruence].
  destruct (JS.truthy_opt_number (prId m) && JS.truthy_opt_string (repository m));
    [|done].
  destruct (MessageStore.saveMessageId _ _ _ _ _ _) as [[|e] ms'] eqn:Hsave;
    simpl; [done|].
  apply (f_equal fst) in Hsave. apply saveMessageId_throws_no_status in Hsave.
  by rewrite Hsave.
Qed.

Lemma settle_no429 outcome ref m q :
  match outcome with
  | Ok _ => True
  | Throw error => responseStatus error ≠ Some 429
  end →
  settle outcome ref m q = shift q.
Proof.
  unfold settle. destruct outcome as [|e]; [done|]. intros Hne.
  by rewrite bool_decide_eq_false_2.
Qed.

Lemma drain_no429 env s ref m rest :
  isProcessing s = false →
  messageQueue s = (ref, m) :: rest →
  no429 env →
  processMessageQueue cfg env s
  = (mkState rest false (allocated s) (deliver cfg env m (messageStore s)).1.2,
     (deliver cfg env m (messageStore s)).2).
Proof.
  intros Hidle Hq Hno. rewrite (processMessageQueue_head env s ref m rest) by done.
  by rewrite settle_no429 by (by apply deliver_no429).
Qed.

(** X10.  A reply costs one request and never writes the store: whatever
    the gateway answers, the worker sends the text once, to the parent
    thread, and leaves the store alone; any response at all removes the
    item from the head. *)
Theorem reply_is_one_post_and_no_write env m ms parent :
  parentMessageId m = Some parent → parent ≠ "" →
  (deliver cfg env m ms).2 = [PostMessage (message m) "thread" parent]
  ∧ (deliver cfg env m ms).1.2 = ms
  ∧ ∀ id s ref rest,
      on_message env = Reply id →
      isProcessing s = false → messageQueue s = (ref, m) :: rest →
      (processMessageQueue cfg env s).1
      = mkState rest false (allocated s) (messageStore s).
Proof.
  intros Hp Hne.
  assert (Htruthy : JS.truthy_opt_string (parentMessageId m) = true).
  { rewrite Hp. simpl. unfold JS.truthy_string. by rewrite bool_decide_eq_true_2. }
  split_and!.
  - unfold deliver. rewrite Htruthy, Hp. by destruct (on_message env).
  - unfold deliver. rewrite Htruthy. by destruct (on_message env).
  - intros id s ref rest Hreply Hidle Hq.
    rewrite (processMessageQueue_head env s ref m rest) by done.
    unfold deliver. by rewrite Htruthy, Hreply.
Qed.

(** X11.  An attempt writes the store for at most one id, the [prId] of
    the message it delivers; a reply, or a message without [prId] or
    without repository (the start-up and error messages), leaves memory and
    file as they were. *)
Theorem deliver_writes_only_its_pull_request env m ms :
  (∀ k, prId m ≠ Some k →
        MessageStore.store (deliver cfg env m ms).1.2 !! k = MessageStore.store ms !! k)
  ∧ (JS.truthy_opt_string (parentMessageId m) = true
     ∨ JS.truthy_opt_number (prId m) = false
     ∨ JS.truthy_opt_string (repository m) = false →
     (deliver cfg env m ms).1.2 = ms).
Proof.
  split.
  - intros k Hk. unfold deliver.
    destruct (JS.truthy_opt_string (parentMessageId m)).
    { by destruct (on_message env). }
    destruct (on_message env) as [mid|st]; [|done].
    destruct (truthy_id mid); [|done].
    destruct (on_thread env) as [tid|st]; [|done].
    destruct (JS.truthy_opt_number (prId m)) eqn:Hnum; [|done].
    destruct (JS.truthy_opt_string (repository m)); [|done]. simpl.
    destruct (prId m) as [n|]; [|done]. simpl.
    pose proof (saveMessageId_frame (on_save env) (now env) n (id_toString tid)
                  (default "" (repository m)) ms k) as Hframe.
    destruct (MessageStore.saveMessageId _ _ _ _ _ _) as [r ms']. simpl in *.
    apply Hframe. congruence.
  - intros Hcase. unfold deliver.
    destruct (JS.truthy_opt_string (parentMessageId m)) eqn:Hp.
    + by destruct (on_message env).
    + destruct Hcase as [?|Hcase]; [done|].
      assert (JS.truthy_opt_number (prId m) && JS.truthy_opt_string (repository m)
              = false) as ->.
      { destruct Hcase as [-> | ->]; [done|apply andb_false_r]. }
      by repeat case_match.
Qed.

(** X12.  Thread continuity.  When the root post of a pull request is
    answered with a message id and the thread creation with a thread id,
    the worker sends these two requests, removes the item and records the
    thread id under the pull request's id (in memory even if the disk
    fails, on disk too when it succeeds); from then on a snapshot of that
    pull request queues either nothing or one reply addressed to that
    thread, never a second root message. *)
Theorem delivered_root_links_later_updates env s ref m rest id repo mid tid t :
  isProcessing s = false →
  messageQueue s = (ref, m) :: rest →
  JS.truthy_opt_string (parentMessageId m) = false →
  prId m = Some id → id ≠ 0 →
  repository m = Some repo → repo ≠ "" →
  on_message env = Reply mid → truthy_id mid = true →
  on_thread env = Reply tid → id_toString tid = Some t → t ≠ "" →
  let out := processMessageQueue cfg env s in
  out.2 = [PostMessage (message m) "discussion" (chatId cfg);
           PostThread (default "" (id_toString mid))]
  ∧ messageQueue out.1 = rest
  ∧ MessageStore.getMessageId id (messageStore out.1) = Some t
  ∧ (on_save env = MessageStore.FsOk →
     MessageStore.file (messageStore out.1) = MessageStore.store (messageStore out.1))
  ∧ ∀ pr, pr_id pr = id →
      let queue := messageQueue (sendPullRequestNotification cfg pr out.1).2 in
      queue = rest
      ∨ ∃ text, queue = (rest ++ [(allocated s,
                   mkQueuedMessage text (Some t) (Some id)
                     (Some (pr_source_repository pr)) 0)])%list.
Proof.
  intros Hidle Hq Hroot Hid Hid0 Hrepo Hrepo0 Hpost Hmid Hthread Ht Ht0 out.
  destruct (saveMessageId_valid (on_save env) (now env) id t repo (messageStore s)
              Hid0 Ht0 Hrepo0) as (Hst & Hget & Hok & Hthrow).
  cbv zeta in Hst, Hget, Hok, Hthrow.
  set (saved := MessageStore.saveMessageId (on_save env) (now env) id (Some t) repo
                  (messageStore s)) in *.
  assert (Hdel : deliver cfg env m (messageStore s)
                 = (saved.1, saved.2,
                    [PostMessage (message m) "discussion" (chatId cfg);
                     PostThread (default "" (id_toString mid))])).
  { unfold deliver. rewrite Hroot, Hpost, Hmid, Hthread, Hid, Hrepo, Ht. simpl.
    unfold JS.truthy_number, JS.truthy_string.
    rewrite !bool_decide_eq_true_2 by done. simpl. fold saved.
    by destruct saved. }
  assert (Hout : out = (mkState rest false (allocated s) saved.2,
                        [PostMessage (message m) "discussion" (chatId cfg);
                         PostThread (default "" (id_toString mid))])).
  { unfold out. rewrite (processMessageQueue_head env s ref m rest) by done.
    rewrite Hdel. simpl. f_equal. f_equal.
    apply settle_no429. destruct saved.1 as [|e] eqn:He; [done|].
    destruct (Hthrow e eq_refl) as [-> _]. done. }
  rewrite Hout. simpl. split_and!; try done.
  - intros Hfs. by rewrite (Hok Hfs).
  - intros pr <-. unfold sendPullRequestNotification. simpl. rewrite Hget.
    repeat case_match; simpl; eauto.
Qed.

(** X13.  A thread creation answered without a usable id (absent, or an
    empty string) makes the store's validation throw; the worker does not
    retry: after the two requests the item is gone and nothing is
    recorded. *)
Theorem thread_without_id_drops_unrecorded env s ref m rest mid tid :
  isProcessing s = false →
  messageQueue s = (ref, m) :: rest →
  JS.truthy_opt_string (parentMessageId m) = false →
  on_message env = Reply mid → truthy_id mid = true →
  on_thread env = Reply tid → JS.truthy_opt_string (id_toString tid) = false →
  processMessageQueue cfg env s
  = (mkState rest false (allocated s) (messageStore s),
     [PostMessage (message m) "discussion" (chatId cfg);
      PostThread (default "" (id_toString mid))]).
Proof.
  intros Hidle Hq Hroot Hpost Hmid Hthread Htid.
  rewrite (processMessageQueue_head env s ref m rest) by done.
  unfold deliver. rewrite Hroot, Hpost, Hmid, Hthread.
  destruct (JS.truthy_opt_number (prId m) && JS.truthy_opt_string (repository m));
    [|done].
  rewrite saveMessageId_rejects_invalid_aux by (by left). done.
Qed.

End DeliveryFacts.

Section DeliveryWitnesses.
Import Pachka Sample.

Lemma reply_is_one_post_and_no_write_witness :
  (parentMessageId second = Some "thread-9" ∧ "thread-9" ≠ "")
  ∧ (deliver Sample.cfg busy second noStore).2
    = [PostMessage "second" "thread" "thread-9"].
Proof.
  assert (H1 : parentMessageId second = Some "thread-9") by reflexivity.
  assert (H2 : "thread-9" ≠ "") by done.
  split; [done|].
  apply (reply_is_one_post_and_no_write Sample.cfg busy second noStore "thread-9" H1 H2).
Defined.

Lemma delivered_root_links_later_updates_witness :
  let env := mkAttempt (Reply (IdNumber 41)) (Reply (IdNumber 42))
               MessageStore.FsOk "2024-01-02T00:00:00.000Z" in
  let out := processMessageQueue Sample.cfg env queued in
  out.2 = [PostMessage "first" "discussion" "chat-1"; PostThread "41"]
  ∧ MessageStore.getMessageId 1 (messageStore out.1) = Some "42".
Proof.
  intros env out.
  assert (H1 : 1 ≠ 0) by done.
  assert (H2 : "team/app" ≠ "") by done.
  assert (H3 : "42" ≠ "") by done.
  pose proof (delivered_root_links_later_updates Sample.cfg env queued 0%nat first
                [(1%nat, second)] 1 "team/app" (IdNumber 41) (IdNumber 42) "42"
                eq_refl eq_refl eq_refl eq_refl H1 eq_refl H2 eq_refl eq_refl
                eq_refl eq_refl H3) as (Hcalls & _ & Hget & _).
  split; [exact Hcalls|exact Hget].
Defined.

Lemma thread_without_id_drops_unrecorded_witness :
  let env := mkAttempt (Reply (IdNumber 41)) (Reply IdMissing)
               MessageStore.FsOk "2024-01-02T00:00:00.000Z" in
  (isProcessing queued = false ∧ truthy_id (IdNumber 41) = true
   ∧ JS.truthy_opt_string (id_toString IdMissing) = false)
  ∧ messageQueue (processMessageQueue Sample.cfg env queued).1 = [(1%nat, second)]
  ∧ messageStore (processMessageQueue Sample.cfg env queued).1 = noStore.
Proof.
  intros env.
  pose proof (thread_without_id_drops_unrecorded Sample.cfg env queued 0%nat first
                [(1%nat, second)] (IdNumber 41) IdMissing
                eq_refl eq_refl eq_refl eq_refl eq_refl eq_refl eq_refl) as H.
  rewrite H. split_and!; reflexivity.
Defined.

End DeliveryWitnesses.

(** ** Delivery worker: progress and order *)

Section DeliveryProgress.
Import Pachka.
Context (cfg : Config).
Implicit Types (s : State) (m : QueuedMessage) (env : Attempt)
  (rest : list (nat * QueuedMessage)).

Lemma processMessageQueue_ids env s :
  (messageQueue (processMessageQueue cfg env s).1).*1 = (messageQueue s).*1
  ∨ (messageQueue (processMessageQueue cfg env s).1).*1 = tail (messageQueue s).*1.
Proof.
  unfold processMessageQueue. destruct (isProcessing s); [by left|].
  destruct (messageQueue s) as [|[ref m] rest] eqn:Hq; [left; simpl; by rewrite Hq|].
  destruct (deliver cfg env m (messageStore s)) as [[outcome ms] calls]. simpl.
  apply (settle_ids outcome ref m ((ref, m) :: rest)).
Qed.

Lemma processMessageQueue_clears_flag env s :
  isProcessing s = false → isProcessing (processMessageQueue cfg env s).1 = false.
Proof.
  intros Hidle. unfold processMessageQueue. rewrite Hidle.
  destruct (messageQueue s) as [|[ref m] rest]; [done|].
  by destruct (deliver cfg env m (messageStore s)) as [[outcome ms] calls].
Qed.

Lemma deliver_at_most_two env m ms : (length (deliver cfg env m ms).2 ≤ 2)%nat.
Proof.
  unfold deliver. repeat (case_match; simpl; try lia).
Qed.

(** One drain on an idle service whose queued objects are distinct: the
    head is gone, or it is still the head with its counter one higher,
    which takes a counter below the maximum. *)
Lemma drain_head_cases env s ref m rest :
  isProcessing s = false →
  messageQueue s = (ref, m) :: rest →
  ref ∉ rest.*1 →
  messageQueue (processMessageQueue cfg env s).1 = rest
  ∨ (retries m < MAX_RETRIES)%nat
    ∧ messageQueue (processMessageQueue cfg env s).1
      = (ref, withRetries (S (retries m)) m) :: rest.
Proof.
  intros Hidle Hq Hfresh.
  rewrite (processMessageQueue_head cfg env s ref m rest) by done. simpl.
  unfold settle. destruct ((deliver cfg env m (messageStore s)).1.1) as [|e];
    [by left|].
  repeat case_bool_decide; try (by left). right. split; [done|].
  by apply bump_head.
Qed.

Lemma drains_absent envs s ref :
  ref ∉ (messageQueue s).*1 → ref ∉ (messageQueue (drains cfg envs s).1).*1.
Proof.
  revert s. induction envs as [|env envs IH]; intros s Hnot; [done|].
  simpl. apply IH.
  destruct (processMessageQueue_ids env s) as [-> | ->]; [done|].
  intros Hin. apply Hnot. destruct ((messageQueue s).*1); [done|]. by right.
Qed.

(** X14.  An attempt that meets no 429 removes the head item whatever
    else happens: delivered, rejected with another status, left without a
    response, or failed in the store, and whatever its retry counter. *)
Theorem attempt_without_429_removes_head env s ref m rest :
  isProcessing s = false →
  messageQueue s = (ref, m) :: rest →
  no429 env →
  messageQueue (processMessageQueue cfg env s).1 = rest
  ∧ isProcessing (processMessageQueue cfg env s).1 = false
  ∧ allocated (processMessageQueue cfg env s).1 = allocated s.
Proof.
  intros Hidle Hq Hno. by rewrite (drain_no429 cfg env s ref m rest).
Qed.

(** X15.  Bounded retry.  On an idle service with distinct queued objects
    the head item, its counter at most [MAX_RETRIES], has left the queue
    after [MAX_RETRIES + 1 - retries] drains, whatever the gateway, the
    disk and the clock do in each of them. *)
Theorem head_leaves_within_four_attempts envs s ref m rest :
  isProcessing s = false →
  messageQueue s = (ref, m) :: rest →
  ref ∉ rest.*1 →
  (retries m ≤ MAX_RETRIES)%nat →
  (MAX_RETRIES + 1 - retries m ≤ length envs)%nat →
  ref ∉ (messageQueue (drains cfg envs s).1).*1.
Proof.
  revert s m. induction envs as [|env envs IH]; intros s m Hidle Hq Hfresh Hle Hlen.
  { simpl in Hlen. unfold MAX_RETRIES in *. lia. }
  simpl.
  destruct (drain_head_cases env s ref m rest Hidle Hq Hfresh) as [Hgone|[Hlt Hkept]].
  - apply drains_absent. by rewrite Hgone.
  - apply (IH _ (withRetries (S (retries m)) m)).
    + by apply processMessageQueue_clears_flag.
    + done.
    + done.
    + simpl. lia.
    + simpl in *. unfold MAX_RETRIES in *. lia.
Qed.

(** X16.  A drain never reorders or grows the queue: the identities
    queued afterwards are those queued before, or those without the first;
    it allocates nothing, sends at most two requests, does nothing at all
    when the service is processing or the queue is empty, and otherwise
    ends with the flag cleared. *)
Theorem drain_removes_at_most_the_head env s :
  let out := processMessageQueue cfg env s in
  ((messageQueue out.1).*1 = (messageQueue s).*1
   ∨ (messageQueue out.1).*1 = tail (messageQueue s).*1)
  ∧ allocated out.1 = allocated s
  ∧ (length out.2 ≤ 2)%nat
  ∧ (isProcessing s = true ∨ messageQueue s = [] → out = (s, []))
  ∧ (isProcessing s = false → isProcessing out.1 = false).
Proof.
  intros out. split_and!.
  - apply processMessageQueue_ids.
  - unfold out, processMessageQueue. destruct (isProcessing s); [done|].
    destruct (messageQueue s) as [|[ref m] rest]; [done|].
    by destruct (deliver cfg env m (messageStore s)) as [[outcome ms] calls].
  - unfold out, processMessageQueue. destruct (isProcessing s); [simpl; lia|].
    destruct (messageQueue s) as [|[ref m] rest]; [simpl; lia|].
    pose proof (deliver_at_most_two env m (messageStore s)) as Hlen.
    by destruct (deliver cfg env m (messageStore s)) as [[outcome ms] calls].
  - unfold out, processMessageQueue. intros [-> | Hempty]; [done|].
    destruct (isProcessing s); [done|]. by rewrite Hempty.
  - apply processMessageQueue_clears_flag.
Qed.


(** X18.  First in, first out.  As long as no attempt meets a 429, as
    many drains as there are queued items empty the queue, and the drains
    post the items' texts one per drain in queue order. *)
Theorem queue_drains_in_order envs s :
  isProcessing s = false →
  Forall no429 envs →
  length envs = length (messageQueue s) →
  messageQueue (drains cfg envs s).1 = []
  ∧ Forall2
      (λ (cell : nat * QueuedMessage) calls,
         ∃ entity_type entity_id more,
           calls = PostMessage (message cell.2) entity_type entity_id :: more)
      (messageQueue s) (drains cfg envs s).2.
Proof.
  revert s. induction envs as [|env envs IH]; intros s Hidle Hno Hlen.
  - simpl in *. destruct (messageQueue s); [|done]. split; [done|constructor].
  - apply Forall_cons in Hno as [Hno1 Hno].
    destruct (messageQueue s) as [|[ref m] rest] eqn:Hq; [done|].
    simpl in Hlen. injection Hlen as Hlen.
    pose proof (drain_no429 cfg env s ref m rest Hidle Hq Hno1) as Hdrain.
    simpl. rewrite Hdrain. simpl.
    destruct (IH (mkState rest false (allocated s)
                    (deliver cfg env m (messageStore s)).1.2)) as [Hempty Hall];
      [done|done|done|].
    split; [done|]. constructor; [|done].
    apply deliver_first_request.
Qed.

End DeliveryProgress.

Section DeliveryProgressWitnesses.
Import Pachka Sample.

Lemma refused_no429 : no429 refused.
Proof. split; intros [=]. Qed.

Lemma attempt_without_429_removes_head_witness :
  no429 refused
  ∧ messageQueue (processMessageQueue Sample.cfg refused queued).1 = [(1%nat, second)].
Proof.
  split; [exact refused_no429|].
  apply (attempt_without_429_removes_head Sample.cfg refused queued 0%nat first
           [(1%nat, second)] eq_refl eq_refl refused_no429).
Defined.

Lemma not_queued_behind : 0%nat ∉ [(1%nat, second)].*1.
Proof. intros [H|H]%elem_of_cons; [discriminate H|by apply elem_of_nil in H]. Qed.

Lemma head_leaves_within_four_attempts_witness :
  (retries first ≤ MAX_RETRIES ∧ MAX_RETRIES + 1 - retries first ≤ 4)%nat
  ∧ 0%nat ∉ (messageQueue (drains Sample.cfg [busy; busy; busy; busy] queued).1).*1.
Proof.
  assert (H1 : (retries first ≤ MAX_RETRIES)%nat) by (vm_compute; lia).
  assert (H2 : (MAX_RETRIES + 1 - retries first ≤ length [busy; busy; busy; busy])%nat)
    by (vm_compute; lia).
  split; [split; [exact H1|exact H2]|].
  apply (head_leaves_within_four_attempts Sample.cfg [busy; busy; busy; busy] queued
           0%nat first [(1%nat, second)] eq_refl eq_refl not_queued_behind H1 H2).
Defined.


Lemma queue_drains_in_order_witness :
  (Forall no429 [refused; blank] ∧ length [refused; blank] = length (messageQueue queued))
  ∧ messageQueue (drains Sample.cfg [refused; blank] queued).1 = [].
Proof.
  assert (H1 : Forall no429 [refused; blank]).
  { repeat constructor; intros [=]. }
  assert (H2 : length [refused; blank] = length (messageQueue queued)) by reflexivity.
  split; [done|].
  apply (queue_drains_in_order Sample.cfg [refused; blank] queued eq_refl H1 H2).
Defined.

End DeliveryProgressWitnesses.

(** ** Renderer and reconciliation of one snapshot *)

Section NotificationFacts.
Import Pachka.
Context (cfg : Config).
Implicit Types (pr : PullRequest) (reviewer : BitbucketUser) (s : State).

Lemma allReviewersApproved_iff pr :
  allReviewersApproved pr = true ↔ pr_reviewers pr ≠ [] ∧ ApprovedByAll pr.
Proof.
  unfold allReviewersApproved. rewrite andb_true_iff, bool_decide_eq_true.
  split; intros [Hne Hall]; (split; [done|]).
  - by apply forallb_ApprovedByAll.
  - by apply ApprovedByAll_forallb.
Qed.

Lemma pendingReviewers_nil_iff pr :
  pendingReviewers cfg pr = [] ↔ ∀ reviewer, reviewer ∈ pr_reviewers pr → ¬ Pending pr reviewer.
Proof.
  unfold pendingReviewers.
  assert (Hfmap : ∀ l : list BitbucketUser,
            (λ reviewer, withMention cfg (display_name reviewer)) <$> l = [] ↔ l = []).
  { intros l. split; [apply fmap_nil_inv|by intros ->]. }
  rewrite Hfmap. split.
  - intros Hnil r Hr Hp. apply awaitsReview_Pending in Hp.
    assert (Hin : In r (List.filter (awaitsReview pr) (pr_reviewers pr))).
    { apply filter_In. split; [by apply list_elem_of_In|done]. }
    by rewrite Hnil in Hin.
  - intros Hnone. induction (pr_reviewers pr) as [|r rs IH]; [done|]. simpl.
    destruct (awaitsReview pr r) eqn:Hw.
    + exfalso. apply (Hnone r); [by left|]. by apply awaitsReview_Pending.
    + apply IH. intros r' Hr'. apply Hnone. by right.
Qed.

Lemma hasPendingReviewers_iff pr :
  hasPendingReviewers pr = true ↔ ∃ reviewer, reviewer ∈ pr_reviewers pr ∧ Pending pr reviewer.
Proof.
  unfold hasPendingReviewers. rewrite existsb_exists. split.
  - intros (r & Hr & Hw). exists r. split; [by apply list_elem_of_In|].
    by apply awaitsReview_Pending.
  - intros (r & Hr & Hp). exists r. split; [by apply list_elem_of_In|].
    by apply awaitsReview_Pending.
Qed.

(** With a pending reviewer the update is the reminder over the pending
    list. *)
Lemma update_reminder pr :
  (∃ reviewer, reviewer ∈ pr_reviewers pr ∧ Pending pr reviewer) →
  formatPullRequestUpdateMessage cfg pr
  = Some (reminderText pr (pendingReviewers cfg pr)).
Proof.
  intros Hex. unfold formatPullRequestUpdateMessage.
  assert (Hall : allReviewersApproved pr = false).
  { apply not_true_is_false. intros [_ Hall]%allReviewersApproved_iff.
    destruct Hex as (r & Hr & Hp). destruct (Hall r Hr) as (p & Hinfo & Hap).
    destruct Hp as [Hnone|(q & Hq & Hna & _)]; congruence. }
  rewrite Hall, andb_false_r.
  destruct (pendingReviewers cfg pr) eqn:Hpend; [|done].
  pose proof (proj1 (pendingReviewers_nil_iff pr) Hpend) as Hnone.
  destruct Hex as (r & Hr & Hp). by destruct (Hnone r Hr).
Qed.

(** X19.  The renderer stays silent exactly when no reviewer is pending
    and the snapshot is not an OPEN one with a non-empty reviewer list that
    everybody approved: so a fully approved pull request that is no longer
    OPEN, and one whose reviewers all asked for changes, produce no
    update. *)
Theorem no_update_iff pr :
  formatPullRequestUpdateMessage cfg pr = None
  ↔ (∀ reviewer, reviewer ∈ pr_reviewers pr → ¬ Pending pr reviewer)
    ∧ ¬ (pr_state pr = OPEN ∧ pr_reviewers pr ≠ [] ∧ ApprovedByAll pr).
Proof.
  unfold formatPullRequestUpdateMessage.
  destruct (bool_decide (pr_state pr = OPEN) && allReviewersApproved pr) eqn:Hfirst.
  - apply andb_true_iff in Hfirst as [Hopen%bool_decide_eq_true Hall].
    apply allReviewersApproved_iff in Hall. split; [done|]. intros [_ Hnot].
    exfalso. apply Hnot. by destruct Hall.
  - assert (Hnot : ¬ (pr_state pr = OPEN ∧ pr_reviewers pr ≠ [] ∧ ApprovedByAll pr)).
    { intros (Hopen & Hne & Hall). apply andb_false_iff in Hfirst as [Hf|Hf].
      - by apply bool_decide_eq_false in Hf.
      - assert (allReviewersApproved pr = true) by (by apply allReviewersApproved_iff).
        congruence. }
    destruct (pendingReviewers cfg pr) eqn:Hpend.
    + pose proof (proj1 (pendingReviewers_nil_iff pr) Hpend) as Hnone. by split.
    + split; [done|]. intros [Hnone _].
      pose proof (proj2 (pendingReviewers_nil_iff pr) Hnone). congruence.
Qed.

(** X20.  The new-pull-request text marks a reviewer with the hourglass
    exactly when the reviewer is pending, that is, exactly when the
    reminder would list them; with the check mark exactly when the
    reviewer's record is approved; and with the red mark otherwise.  So the
    pull request has pending reviewers iff some reviewer shows the
    hourglass. *)
Theorem glyph_matches_review_state pr reviewer :
  (statusGlyph pr reviewer = "⏳" ↔ Pending pr reviewer)
  ∧ (statusGlyph pr reviewer = "✅" ↔ approvedOf (participantInfo pr reviewer) = true)
  ∧ (statusGlyph pr reviewer = "🔴"
     ↔ approvedOf (participantInfo pr reviewer) = false ∧ ¬ Pending pr reviewer)
  ∧ (hasPendingReviewers pr = true
     ↔ ∃ r, r ∈ pr_reviewers pr ∧ statusGlyph pr r = "⏳").
Proof.
  assert (Hglyph : ∀ r, statusGlyph pr r = "⏳" ↔ Pending pr r).
  { intros r. rewrite <- awaitsReview_Pending. unfold statusGlyph, awaitsReview.
    destruct (approvedOf (participantInfo pr r));
      destruct (changesRequested (participantInfo pr r)); simpl; split; done. }
  split_and!.
  - apply Hglyph.
  - unfold statusGlyph. destruct (approvedOf (participantInfo pr reviewer));
      [done|]. destruct (changesRequested (participantInfo pr reviewer)); split; done.
  - rewrite <- awaitsReview_Pending. unfold statusGlyph, awaitsReview.
    destruct (approvedOf (participantInfo pr reviewer));
      destruct (changesRequested (participantInfo pr reviewer)); simpl;
      split; try done; try (by intros []); by intros [_ []].
  - rewrite hasPendingReviewers_iff. by setoid_rewrite Hglyph.
Qed.

(** X21.  Handing a snapshot to the chat service returns true, leaves the
    store and the processing flag alone, and queues at most one message:
    one carrying the pull request's id and repository, a fresh counter, and
    as parent whatever the store's lookup returned.  A pull request without
    a recorded thread always gets the new-pull-request root message,
    whatever its state and reviewers. *)
Theorem notification_queues_at_most_one pr s :
  let out := sendPullRequestNotification cfg pr s in
  let thread := MessageStore.getMessageId (pr_id pr) (messageStore s) in
  out.1 = true
  ∧ messageStore out.2 = messageStore s
  ∧ isProcessing out.2 = isProcessing s
  ∧ (out.2 = s
     ∨ ∃ text, out.2 = queueMessage text thread (Some (pr_id pr))
                         (Some (pr_source_repository pr)) s)
  ∧ (thread = None →
     out.2 = queueMessage (formatPullRequestMessage pr) None (Some (pr_id pr))
               (Some (pr_source_repository pr)) s).
Proof.
  intros out thread. unfold out, sendPullRequestNotification. fold thread.
  destruct thread as [t|]; [|split_and!; eauto].
  destruct (formatPullRequestUpdateMessage cfg pr) as [text|]; [|split_and!; eauto; done].
  destruct (JS.truthy_string text); split_and!; eauto; done.
Qed.

End NotificationFacts.

(** ** The new-pull-request text *)

Section NewPullRequestText.
Import Pachka.
Implicit Types (pr : PullRequest).

Lemma truthy_String c s : JS.truthy_string (String c s) = true.
Proof. unfold JS.truthy_string. by apply bool_decide_eq_true_2. Qed.

Lemma truthy_prefixed c s x : JS.truthy_string (String c s +:+ x) = true.
Proof. apply truthy_String. Qed.

Lemma join_cons_String sep c s l : ∃ c' s', JS.join sep (String c s :: l) = String c' s'.
Proof. unfold JS.join. destruct l; simpl; eauto. Qed.

Lemma statusGlyph_String pr reviewer : ∃ c s, statusGlyph pr reviewer = String c s.
Proof. unfold statusGlyph. repeat case_match; eauto. Qed.

(** X22.  The new-pull-request text is its non-empty parts joined by
    single newlines, the empty separators of the array being filtered out:
    the heading, the title, author, state (OPEN shown translated),
    repository and branch lines, the reviewers heading followed by one line
    per reviewer in snapshot order or by the placeholder when there is
    none, then, only when the description is not empty, the description
    block (its heading, the description and a closing newline, which leaves
    one empty line before what follows), and the link. *)
Theorem new_pull_request_text_lines pr :
  formatPullRequestMessage pr
  = JS.join JS.nl
      ([ "🟢 *Новый Pull Request*";
         "*Название:* " +:+ pr_title pr;
         "*Автор:* " +:+ display_name (pr_author pr);
         "*Статус:* " +:+
           (if bool_decide (pr_state pr = OPEN) then "Открыт"
            else state_text (pr_state pr));
         "*Репозиторий:* " +:+ pr_source_repository pr;
         "*Ветки:* " +:+ pr_source_branch pr +:+ " → " +:+ pr_destination_branch pr;
         "*Ревьюеры:*";
         match pr_reviewers pr with
         | [] => "Нет назначенных ревьюеров"
         | _ =>
             JS.join JS.nl
               ((λ reviewer, statusGlyph pr reviewer +:+ " " +:+ display_name reviewer)
                  <$> pr_reviewers pr)
         end ]
       ++ (if bool_decide (pr_description pr = "") then []
           else [JS.join JS.nl ["*Описание:*"; pr_description pr; ""]])
       ++ [ "🔗 " +:+ pr_href pr ])%list.
Proof.
  unfold formatPullRequestMessage.
  set (reviewersText :=
         JS.join JS.nl
           ((λ reviewer, statusGlyph pr reviewer +:+ " " +:+ display_name reviewer)
              <$> pr_reviewers pr)).
  set (shown := if JS.truthy_string reviewersText then reviewersText
                else "Нет назначенных ревьюеров").
  assert (Hshown : shown = match pr_reviewers pr with
                           | [] => "Нет назначенных ревьюеров"
                           | _ => reviewersText
                           end ∧ JS.truthy_string shown = true).
  { unfold shown, reviewersText. destruct (pr_reviewers pr) as [|r rs]; [done|].
    rewrite fmap_cons.
    destruct (statusGlyph_String pr r) as (c & g & ->).
    destruct (join_cons_String JS.nl c (g +:+ " " +:+ display_name r)
                ((λ reviewer, statusGlyph pr reviewer +:+ " " +:+ display_name reviewer)
                   <$> rs)) as (c' & s' & Hjoin).
    change (String c g +:+ " " +:+ display_name r)
      with (String c (g +:+ " " +:+ display_name r)).
    rewrite Hjoin. by rewrite truthy_String. }
  destruct Hshown as [Hshown Htruthy]. rewrite <- Hshown. clearbody shown.
  set (block := if JS.truthy_string (pr_description pr)
                then JS.join JS.nl ["*Описание:*"; pr_description pr; ""] else "").
  assert (Hblock : List.filter JS.truthy_string [block]
                   = if bool_decide (pr_description pr = "") then []
                     else [JS.join JS.nl ["*Описание:*"; pr_description pr; ""]]).
  { unfold block, JS.truthy_string at 2. case_bool_decide as Hd; simpl.
    - by rewrite bool_decide_eq_false_2.
    - by rewrite bool_decide_eq_true_2. }
  rewrite <- Hblock.
  cbn [List.filter].
  rewrite !truthy_prefixed, !truthy_String, Htruthy.
  change (JS.truthy_string "") with false. cbn [app]. 
  destruct (JS.truthy_string block); reflexivity.
Qed.

End NewPullRequestText.

(** ** Poll passes: what they queue, keep and never touch *)

Section PollFacts.
Import Bitbucket.
Context (cfg : Pachka.Config) (rd : Reader) (fs : Z → MessageStore.FsOutcome).
Implicit Types (s : Pachka.State) (acc : gset Z * Pachka.State) (pr : PullRequest).

Local Abbreviation storeOf s := (MessageStore.store (Pachka.messageStore s)).

Lemma foldl_related {A B} (R : A → A → Prop) (f : A → B → A) (l : list B) (a : A) :
  (∀ a, R a a) → (∀ a b c, R a b → R b c → R a c) →
  (∀ a x, x ∈ l → R a (f a x)) →
  R a (foldl f a l).
Proof.
  intros Hrefl Htrans. revert a. induction l as [|x l IH]; intros a Hstep; [done|].
  simpl. eapply Htrans; [apply Hstep; by left|].
  apply IH. intros a' y Hy. apply Hstep. by right.
Qed.

Lemma appendsOnly_refl s : appendsOnly s s.
Proof. by split. Qed.

Lemma appendsOnly_trans s1 s2 s3 :
  appendsOnly s1 s2 → appendsOnly s2 s3 → appendsOnly s1 s3.
Proof. intros [H1 H2] [H3 H4]. split; [by etrans|congruence]. Qed.

Lemma sendPullRequestNotification_appendsOnly pr s :
  appendsOnly s (Pachka.sendPullRequestNotification cfg pr s).2.
Proof.
  unfold Pachka.sendPullRequestNotification, appendsOnly.
  repeat case_match; simpl; split; try done; by apply prefix_app_r.
Qed.

Lemma removeFromStore_appendsOnly f k repo s :
  appendsOnly s (Pachka.removeFromStore f k repo s).
Proof.
  unfold Pachka.removeFromStore.
  by destruct (MessageStore.removePR f k repo (Pachka.messageStore s)).
Qed.

Lemma remind_appendsOnly acc pr : appendsOnly acc.2 (remind cfg acc pr).2.
Proof.
  unfold remind. destruct (hasPendingReviewers pr); simpl;
    [apply sendPullRequestNotification_appendsOnly|apply appendsOnly_refl].
Qed.

Lemma sweep_appendsOnly w repo (A : gset Z) s sp :
  appendsOnly s (sweep rd fs w repo A s sp).
Proof.
  unfold sweep. repeat case_match; try apply appendsOnly_refl.
  apply removeFromStore_appendsOnly.
Qed.

Lemma checkRepository_appendsOnly stored w acc repo :
  appendsOnly acc.2 (checkRepository cfg rd fs stored w acc repo).2.
Proof.
  unfold checkRepository. cbn [fst snd].
  set (acc' := foldl (remind cfg) acc (getOpenPullRequests rd w repo)).
  apply (appendsOnly_trans _ acc'.2).
  - apply (foldl_related (λ a b : gset Z * Pachka.State, appendsOnly a.2 b.2)
             (remind cfg) (getOpenPullRequests rd w repo) acc); intros.
    + apply appendsOnly_refl.
    + by eapply appendsOnly_trans.
    + apply remind_appendsOnly.
  - apply (foldl_related appendsOnly (sweep rd fs w repo acc'.1)); intros.
    + apply appendsOnly_refl.
    + by eapply appendsOnly_trans.
    + apply sweep_appendsOnly.
Qed.

(** X23.  A periodic cycle only appends to the queue and only removes
    from the store: the queue it finds is a prefix of the queue it leaves,
    the processing flag is as it was, every record left was there before
    with the same content, and outside working hours nothing changes at
    all. *)
Theorem cycle_appends_and_purges_only workspaces working s :
  let s' := checkPullRequests cfg rd fs workspaces working s in
  Pachka.messageQueue s `prefix_of` Pachka.messageQueue s'
  ∧ Pachka.isProcessing s' = Pachka.isProcessing s
  ∧ storeOf s' ⊆ storeOf s
  ∧ (working = false → s' = s).
Proof.
  intros s'. destruct working; [|by unfold s'].
  assert (Happ : appendsOnly s s').
  { unfold s'. rewrite checkPullRequests_polled.
    apply (foldl_related (λ a b : gset Z * Pachka.State, appendsOnly a.2 b.2)
             (cycleStep cfg rd fs (Pachka.getAllStoredPRs s)) (polled workspaces)
             (∅, s)); intros.
    - apply appendsOnly_refl.
    - by eapply appendsOnly_trans.
    - apply checkRepository_appendsOnly. }
  destruct Happ as [Hq Hp]. split_and!; try done.
  unfold s'. rewrite checkPullRequests_polled.
  apply (cycle_fold_spec cfg rd fs _ (polled workspaces) (∅, s)).
Qed.

Lemma getAllPRs_elem s sp :
  sp ∈ Pachka.getAllStoredPRs s →
  ∃ e, storeOf s !! MessageStore.sp_prId sp = Some e
       ∧ MessageStore.sp_repository sp = MessageStore.repository e.
Proof.
  unfold Pachka.getAllStoredPRs, MessageStore.getAllPRs.
  intros ([k e] & -> & Hin)%list_elem_of_fmap.
  apply elem_of_map_to_list in Hin. by exists e.
Qed.

Lemma sweep_keeps w repo (A : gset Z) s sp k e :
  storeOf s !! k = Some e →
  (MessageStore.sp_prId sp = k →
   k ∈ A ∨ status_reply rd w repo k = State "OPEN"
   ∨ ∃ status, status_reply rd w repo k = StatusRejected status ∧ status ≠ Some 404) →
  storeOf (sweep rd fs w repo A s sp) !! k = Some e.
Proof.
  intros Hk Hkeep. unfold sweep.
  case_bool_decide as Hact; [done|].
  destruct (decide (MessageStore.sp_prId sp = k)) as [Heq|Hne].
  - destruct (Hkeep Heq) as [Hin|[Hopen|(st & Hrej & Hst)]];
      rewrite Heq in *; [done| |].
    + unfold getPRStatus. rewrite Hopen. by rewrite bool_decide_eq_false_2 by naive_solver.
    + unfold getPRStatus. rewrite Hrej. by rewrite bool_decide_eq_false_2.
  - destruct (getPRStatus rd w repo (MessageStore.sp_prId sp)); [|done].
    case_bool_decide; [|done].
    rewrite removeFromStore_store. repeat case_match; try done.
    by rewrite lookup_delete_ne.
Qed.

(** X24.  No false purge.  A record survives the cycle unchanged unless
    some polled repository of the record's name fails to list the id as
    open and gets a status other than OPEN (or a 404) for it: an id in the
    open-list, a status request answering OPEN, and a status request
    failing otherwise all keep the record, and so does a record whose
    repository is not polled. *)
Theorem record_kept_unless_reported_closed workspaces working s k e :
  storeOf s !! k = Some e →
  (∀ wr, wr ∈ polled workspaces → wr.2 = MessageStore.repository e →
         notReportedClosed rd k wr) →
  storeOf (checkPullRequests cfg rd fs workspaces working s) !! k = Some e.
Proof.
  intros Hk Hkeep. destruct working; [|done].
  rewrite checkPullRequests_polled.
  set (stored := Pachka.getAllStoredPRs s).
  apply (foldl_related
           (λ a b : gset Z * Pachka.State,
              storeOf a.2 !! k = Some e → storeOf b.2 !! k = Some e)
           (cycleStep cfg rd fs stored) (polled workspaces) (∅, s));
    [done|naive_solver| |done].
  intros acc wr Hwr Hacc. unfold cycleStep, checkRepository. cbn [fst snd].
  destruct (remind_fold cfg fs (getOpenPullRequests rd wr.1 wr.2) acc) as [Hin Hst].
  set (acc' := foldl (remind cfg) acc (getOpenPullRequests rd wr.1 wr.2)) in *.
  cbv zeta in Hin, Hst.
  apply (foldl_related
           (λ a b : Pachka.State, storeOf a !! k = Some e → storeOf b !! k = Some e)
           (sweep rd fs wr.1 wr.2 acc'.1));
    [done|naive_solver| |by rewrite Hst].
  intros s1 sp Hsp Hs1. apply sweep_keeps; [done|]. intros Hid.
  apply list_elem_of_In, filter_In in Hsp as [Hsp Hrepo].
  apply list_elem_of_In, getAllPRs_elem in Hsp as (e0 & He0 & Hr0).
  apply bool_decide_eq_true in Hrepo.
  rewrite Hid in He0. assert (e0 = e) as -> by congruence.
  destruct (Hkeep wr Hwr) as [Hopen|Hrest]; [congruence| |by right].
  left. apply Hin. by left.
Qed.

(** X25.  What the periodic cycle does with one open snapshot: it always
    notes the id as seen; without a pending reviewer it queues nothing,
    even for a pull request it has never announced; with a pending reviewer
    it queues the reminder as a reply to the recorded thread, or, when no
    thread is recorded, the new-pull-request root message. *)
Theorem periodic_notification_needs_pending_reviewer acc pr :
  (remind cfg acc pr).1 = {[pr_id pr]} ∪ acc.1
  ∧ ((∀ reviewer, reviewer ∈ pr_reviewers pr → ¬ Pending pr reviewer) →
     (remind cfg acc pr).2 = acc.2)
  ∧ ((∃ reviewer, reviewer ∈ pr_reviewers pr ∧ Pending pr reviewer) →
     (∀ threadId,
        MessageStore.getMessageId (pr_id pr) (Pachka.messageStore acc.2) = Some threadId →
        (remind cfg acc pr).2
        = Pachka.queueMessage (Pachka.reminderText pr (Pachka.pendingReviewers cfg pr))
            (Some threadId) (Some (pr_id pr)) (Some (pr_source_repository pr)) acc.2)
     ∧ (MessageStore.getMessageId (pr_id pr) (Pachka.messageStore acc.2) = None →
        (remind cfg acc pr).2
        = Pachka.queueMessage (Pachka.formatPullRequestMessage pr) None
            (Some (pr_id pr)) (Some (pr_source_repository pr)) acc.2)).
Proof.
  assert (Hsame : hasPendingReviewers pr = Pachka.hasPendingReviewers pr) by done.
  split_and!.
  - unfold remind. by destruct (hasPendingReviewers pr).
  - intros Hnone. unfold remind. rewrite Hsame.
    destruct (Pachka.hasPendingReviewers pr) eqn:Hp; [|done].
    apply hasPendingReviewers_iff in Hp as (r & Hr & Hpend). by destruct (Hnone r Hr).
  - intros Hex.
    assert (Hp : Pachka.hasPendingReviewers pr = true)
      by (by apply hasPendingReviewers_iff).
    unfold remind. rewrite Hsame, Hp. simpl.
    unfold Pachka.sendPullRequestNotification. split.
    + intros threadId ->. rewrite (update_reminder cfg pr Hex).
      unfold JS.truthy_string.
      by rewrite bool_decide_eq_true_2 by apply reminderText_nonempty.
    + by intros ->.
Qed.

Lemma notified_spec pr s :
  appendsOnly s (Pachka.sendPullRequestNotification cfg pr s).2
  ∧ Pachka.messageStore (Pachka.sendPullRequestNotification cfg pr s).2
    = Pachka.messageStore s.
Proof.
  split; [apply sendPullRequestNotification_appendsOnly|].
  apply sendPullRequestNotification_store.
Qed.

Lemma queuedOnly_fold {B} (f : Pachka.State → B → Pachka.State) (l : list B) s :
  (∀ a x, appendsOnly a (f a x) ∧ Pachka.messageStore (f a x) = Pachka.messageStore a) →
  appendsOnly s (foldl f s l)
  ∧ Pachka.messageStore (foldl f s l) = Pachka.messageStore s.
Proof.
  intros Hstep.
  apply (foldl_related
           (λ a b, appendsOnly a b ∧ Pachka.messageStore b = Pachka.messageStore a)
           f l s).
  - intros a. split; [apply appendsOnly_refl|done].
  - intros a b c [H1 H2] [H3 H4]. split; [by eapply appendsOnly_trans|congruence].
  - intros a x _. apply Hstep.
Qed.

Lemma processAllRepositories_spec workspaces s :
  appendsOnly s (processAllRepositories cfg rd workspaces s)
  ∧ Pachka.messageStore (processAllRepositories cfg rd workspaces s)
    = Pachka.messageStore s.
Proof.
  unfold processAllRepositories.
  apply queuedOnly_fold. intros a w.
  apply queuedOnly_fold. intros a1 repo.
  apply queuedOnly_fold. intros a2 pr.
  apply notified_spec.
Qed.

(** X26.  The start-up pass reads the store and never writes it: it
    leaves every record and the file as they were, keeps the processing
    flag, and only appends to the queue. *)
Theorem startup_pass_appends_only workspaces s :
  let s' := processAllRepositories cfg rd workspaces s in
  Pachka.messageStore s' = Pachka.messageStore s
  ∧ Pachka.messageQueue s `prefix_of` Pachka.messageQueue s'
  ∧ Pachka.isProcessing s' = Pachka.isProcessing s.
Proof.
  intros s'. destruct (processAllRepositories_spec workspaces s) as [[Hq Hp] Hst].
  by split_and!.
Qed.


End PollFacts.

Section PollWitnesses.
Import Sample.

Lemma record_kept_unless_reported_closed_witness :
  (∀ wr, wr ∈ polled oneRepo → wr.2 = "app" → notReportedClosed readerApproved 1 wr)
  ∧ MessageStore.getMessageId 1
      (Pachka.messageStore
         (Bitbucket.checkPullRequests cfg readerApproved disk oneRepo true
            (service threaded)))
    = Some "thread-1".
Proof.
  assert (H1 : MessageStore.store (Pachka.messageStore (service threaded)) !! 1
               = Some (MessageStore.mkEntry "thread-1" "app" "2024-01-01T00:00:00.000Z"))
    by reflexivity.
  assert (H2 : ∀ wr, wr ∈ polled oneRepo →
                 wr.2 = MessageStore.repository
                          (MessageStore.mkEntry "thread-1" "app" "2024-01-01T00:00:00.000Z") →
                 notReportedClosed readerApproved 1 wr).
  { intros wr _ _. left. by left. }
  split; [exact H2|].
  unfold MessageStore.getMessageId.
  rewrite (record_kept_unless_reported_closed cfg readerApproved disk oneRepo true
             (service threaded) 1 _ H1 H2).
  reflexivity.
Defined.

End PollWitnesses.
